(** * Economic calendar parser: the normalisation pipeline of [calendar.py]

    A shallow embedding of the pure core of [calendar.py] (identity hashing,
    numeric shorthand parsing, time normalisation, per-row event assembly and
    the notification filter), and the properties of it that the specification
    states.

    Conventions of the embedding.
    - A Python [str] is a [string]; each character is one code point in
      U+0000..U+00FF.  [None] is the [None] of an [option].
    - A raised exception is the [Raise] branch of [outcome]; [try]/[except]
      is [try_except].
    - What the program takes from libraries it does not define (the
      [dateutil] parser, the time zone data base, the platform's local zone,
      the clock) is gathered in the record [PyEnv] and passed explicitly. *)

From Stdlib Require Import ZArith Lia Ascii String List Bool SpecFloat.
From stdpp Require Import base option list gmap strings.

Local Open Scope Z_scope.

(** ** Exceptions *)

Inductive exn : Type :=
| ValueError
| IndexError
| TypeError
| OverflowError
| AttributeError.

Inductive outcome (A : Type) : Type :=
| Return (a : A)
| Raise (e : exn).
Arguments Return {A} a.
Arguments Raise {A} e.

#[global] Instance outcome_ret : MRet outcome := fun _ a => Return a.
#[global] Instance outcome_bind : MBind outcome := fun _ _ f m =>
  match m with
  | Return a => f a
  | Raise e => Raise e
  end.

(** [try: body except Exception: handler] *)
Definition try_except {A : Type} (body : outcome A) (handler : exn -> outcome A) : outcome A :=
  match body with
  | Return a => Return a
  | Raise e => handler e
  end.

(** [try: body except ValueError: handler]; any other exception propagates. *)
Definition try_except_ValueError {A : Type} (body : outcome A) (handler : outcome A) : outcome A :=
  match body with
  | Return a => Return a
  | Raise ValueError => handler
  | Raise e => Raise e
  end.

(** ** Strings *)

Definition code (c : ascii) : Z := Z.of_N (N_of_ascii c).

(** Truth value of a [str]: the empty string is false. *)
Definition str_truthy (s : string) : bool :=
  match s with
  | EmptyString => false
  | String _ _ => true
  end.

(** Truth value of an optional [str]: [None] and [""] are false. *)
Definition truthy (a : option string) : bool :=
  match a with
  | None => false
  | Some s => str_truthy s
  end.

(** Unicode white space among U+0000..U+00FF: what [str.strip()], [int()] and
    [float()] skip. *)
Definition is_space (c : ascii) : bool :=
  let n := code c in
  ((9 <=? n) && (n <=? 13)) || ((28 <=? n) && (n <=? 32)) || (n =? 133) || (n =? 160).

Definition str_rev (s : string) : string :=
  string_of_list_ascii (rev (list_ascii_of_string s)).

Fixpoint str_lstrip (s : string) : string :=
  match s with
  | EmptyString => EmptyString
  | String c r => if is_space c then str_lstrip r else s
  end.

Definition str_rstrip (s : string) : string := str_rev (str_lstrip (str_rev s)).

(** [s.strip()] *)
Definition str_strip (s : string) : string := str_rstrip (str_lstrip s).

(** [s.replace(c, "")] for a one-character [c]: every occurrence goes. *)
Fixpoint str_remove (c : ascii) (s : string) : string :=
  match s with
  | EmptyString => EmptyString
  | String d r => if Ascii.eqb c d then str_remove c r else String d (str_remove c r)
  end.

(** [s.endswith(suffix)] *)
Definition str_endswith (s suffix : string) : bool :=
  String.prefix (str_rev suffix) (str_rev s).

(** [str.lower()] on U+0000..U+00FF: A-Z and the capital letters
    U+00C0..U+00DE (without the multiplication sign U+00D7) move up by 32. *)
Definition chr_lower (c : ascii) : ascii :=
  let n := code c in
  if ((65 <=? n) && (n <=? 90)) || ((192 <=? n) && (n <=? 222) && negb (n =? 215))
  then ascii_of_N (Z.to_N (n + 32))
  else c.

Fixpoint str_lower (s : string) : string :=
  match s with
  | EmptyString => EmptyString
  | String c r => String (chr_lower c) (str_lower r)
  end.

(** [sep.join(parts)] *)
Definition str_join (sep : string) (parts : list string) : string :=
  String.concat sep parts.

(** [x in xs] for a list of strings *)
Definition str_in (x : string) (xs : list string) : bool :=
  existsb (String.eqb x) xs.

(** [text.encode("utf-8")]: one byte below U+0080, two bytes from there to
    U+00FF. *)
Definition utf8_char (c : ascii) : list Z :=
  let n := code c in
  if n <? 128 then [n]
  else [Z.lor 192 (Z.shiftr n 6); Z.lor 128 (Z.land n 63)].

Fixpoint utf8_encode (s : string) : list Z :=
  match s with
  | EmptyString => []
  | String c r => utf8_char c ++ utf8_encode r
  end.

(** ** SHA-1 ([hashlib.sha1]), FIPS 180-4 *)

Module Sha1.

Definition w32 (x : Z) : Z := Z.land x 4294967295.

Definition rotl (n x : Z) : Z :=
  w32 (Z.lor (Z.shiftl x n) (Z.shiftr x (32 - n))).

Definition add32 (x y : Z) : Z := w32 (x + y).

(** Big-endian bytes of a [k]-byte quantity. *)
Fixpoint be_bytes (k : nat) (x : Z) : list Z :=
  match k with
  | O => []
  | S k' => Z.land (Z.shiftr x (8 * Z.of_nat k')) 255 :: be_bytes k' x
  end.

(** The message followed by the bit 1, zeros up to 56 modulo 64, and the
    length in bits on eight bytes. *)
Definition pad (msg : list Z) : list Z :=
  let len := Z.of_nat (length msg) in
  let zeros := Z.to_nat ((55 - len) mod 64) in
  msg ++ 128 :: repeat 0 zeros ++ be_bytes 8 (8 * len).

Fixpoint be_word (bs : list Z) : Z :=
  match bs with
  | [] => 0
  | b :: r => Z.lor (Z.shiftl b (8 * Z.of_nat (length r))) (be_word r)
  end.

(** Cut a list in pieces of [n] elements ([fuel] bounds the number of
    pieces). *)
Fixpoint chunks {A : Type} (fuel : nat) (n : nat) (l : list A) : list (list A) :=
  match fuel with
  | O => []
  | S fuel' =>
    match l with
    | [] => []
    | _ => take n l :: chunks fuel' n (drop n l)
    end
  end.

Definition words_of_block (block : list Z) : list Z :=
  map be_word (chunks 16 4 block).

Definition f_t (t : nat) (b c d : Z) : Z :=
  if (t <? 20)%nat then Z.lor (Z.land b c) (Z.land (Z.lxor b 4294967295) d)
  else if (t <? 40)%nat then Z.lxor (Z.lxor b c) d
  else if (t <? 60)%nat then Z.lor (Z.lor (Z.land b c) (Z.land b d)) (Z.land c d)
  else Z.lxor (Z.lxor b c) d.

Definition k_t (t : nat) : Z :=
  if (t <? 20)%nat then 1518500249
  else if (t <? 40)%nat then 1859775393
  else if (t <? 60)%nat then 2400959708
  else 3395469782.

Record state : Type := mk_state { ha : Z; hb : Z; hc : Z; hd : Z; he : Z }.

Definition h0 : state := mk_state 1732584193 4023233417 2562383102 271733878 3285377520.

(** The message schedule is kept as a window of the last sixteen words, the
    most recent first: W(t-3), W(t-8), W(t-14) and W(t-16) sit at positions
    2, 7, 13 and 15. *)
Definition next_word (window : list Z) : Z :=
  rotl 1 (Z.lxor (Z.lxor (Z.lxor (nth 2 window 0) (nth 7 window 0)) (nth 13 window 0))
                 (nth 15 window 0)).

Definition round (t : nat) (w : Z) (s : state) : state :=
  let temp := add32 (add32 (add32 (add32 (rotl 5 (ha s)) (f_t t (hb s) (hc s) (hd s))) (he s)) (k_t t)) w in
  mk_state temp (ha s) (rotl 30 (hb s)) (hc s) (hd s).

(** Rounds [t], [t+1], ... ([n] of them).  [pending] holds the message words
    not yet consumed (rounds 0..15); afterwards the words come from the
    window. *)
Fixpoint rounds (n : nat) (t : nat) (pending window : list Z) (s : state) : state :=
  match n with
  | O => s
  | S n' =>
    let '(w, pending') :=
      match pending with
      | w :: r => (w, r)
      | [] => (next_word window, [])
      end in
    rounds n' (S t) pending' (w :: take 15 window) (round t w s)
  end.

Definition compress (s : state) (block : list Z) : state :=
  let s' := rounds 80 0 (words_of_block block) [] s in
  mk_state (add32 (ha s) (ha s')) (add32 (hb s) (hb s')) (add32 (hc s) (hc s'))
           (add32 (hd s) (hd s')) (add32 (he s) (he s')).

Definition digest_state (msg : list Z) : state :=
  let padded := pad msg in
  fold_left compress (chunks (length padded) 64 padded) h0.

Definition hex_digit (n : Z) : ascii :=
  ascii_of_N (Z.to_N (if n <? 10 then 48 + n else 87 + n)).

Fixpoint hex_of (digits : nat) (x : Z) : string :=
  match digits with
  | O => EmptyString
  | S d => String (hex_digit (Z.land (Z.shiftr x (4 * Z.of_nat d)) 15)) (hex_of d x)
  end.

(** [hashlib.sha1(msg).hexdigest()] *)
Definition hexdigest (msg : list Z) : string :=
  let s := digest_state msg in
  hex_of 8 (ha s) +:+ hex_of 8 (hb s) +:+ hex_of 8 (hc s) +:+ hex_of 8 (hd s) +:+ hex_of 8 (he s).

End Sha1.

(** ** Identity hashing: [sha1_id] *)

(** [[str(a) for a in args if a]] *)
Fixpoint kept_fields (args : list (option string)) : list string :=
  match args with
  | [] => []
  | Some s :: r => if str_truthy s then s :: kept_fields r else kept_fields r
  | None :: r => kept_fields r
  end.

(** The text that is hashed: ["|".join(...)]. *)
Definition sha1_text (args : list (option string)) : string :=
  str_join "|" (kept_fields args).

Definition sha1_id (args : list (option string)) : string :=
  Sha1.hexdigest (utf8_encode (sha1_text args)).

(** ** Numbers read from text: [float()] and [int()] *)

Definition is_digit (c : ascii) : bool :=
  let n := code c in (48 <=? n) && (n <=? 57).

Definition digit_of (c : ascii) : Z := code c - 48.

(** The longest run of decimal digits at the head of [s]: its value on top of
    [acc], how many digits on top of [count], and what follows. *)
Fixpoint read_digits (acc count : Z) (s : string) : Z * Z * string :=
  match s with
  | EmptyString => (acc, count, s)
  | String c r =>
    if is_digit c then read_digits (10 * acc + digit_of c) (count + 1) r
    else (acc, count, s)
  end.

(** An underscore is accepted by [float()] only between two digits. *)
Fixpoint underscores_ok (prev : ascii) (s : string) : bool :=
  match s with
  | EmptyString => negb (Ascii.eqb prev "_")
  | String c r =>
    (if Ascii.eqb c "_" then is_digit prev
     else if Ascii.eqb prev "_" then is_digit c
     else true)
    && underscores_ok c r
  end.

(** IEEE 754 binary64, on the Standard Library's specification of floats. *)
Definition float : Type := spec_float.
Definition prec : Z := 53.
Definition emax : Z := 1024.
Definition float_mul (x y : float) : float := SFmul prec emax x y.
Definition float_of_Z (n : Z) : float := binary_normalize prec emax n 0 false.

(** The binary64 nearest to [(-1)^neg * m * 10^e] (ties to even), for
    [0 <= m]: what a correctly rounded decimal conversion returns. *)
Definition float_of_decimal (neg : bool) (m e : Z) : float :=
  match m with
  | Zpos p =>
    if 0 <=? e then binary_normalize prec emax (cond_Zopp neg (m * 10 ^ e)) 0 false
    else SFdiv prec emax (S754_finite neg p 0) (S754_finite false (Z.to_pos (10 ^ (- e))) 0)
  | _ => S754_zero neg
  end.

(** An optional sign. *)
Definition read_sign (s : string) : bool * string :=
  match s with
  | String "-" r => (true, r)
  | String "+" r => (false, r)
  | _ => (false, s)
  end.

(** The exponent part: nothing, or [e]/[E], an optional sign and at least one
    digit, up to the end of the text. *)
Definition read_exponent (s : string) : option Z :=
  match s with
  | EmptyString => Some 0
  | String c r =>
    if Ascii.eqb (chr_lower c) "e" then
      let '(neg, r1) := read_sign r in
      match read_digits 0 0 r1 with
      | (v, n, EmptyString) => if 0 <? n then Some (cond_Zopp neg v) else None
      | _ => None
      end
    else None
  end.

(** A decimal literal without sign: digits, an optional point, digits (one
    digit at least), an optional exponent. *)
Definition read_decimal (neg : bool) (s : string) : option float :=
  let '(ip, n_int, r1) := read_digits 0 0 s in
  let '(m, n_frac, r2) :=
    match r1 with
    | String "." r => let '(v, n, r') := read_digits ip 0 r in (v, n, r')
    | _ => (ip, 0, r1)
    end in
  if 0 <? n_int + n_frac then
    match read_exponent r2 with
    | Some e => Some (float_of_decimal neg m (e - n_frac))
    | None => None
    end
  else None.

(** [float(s)] for a [str]: white space around, a sign, then [inf],
    [infinity], [nan] in any case or a decimal literal; [ValueError]
    otherwise. *)
Definition py_float (s : string) : outcome float :=
  let t := str_strip s in
  if underscores_ok "000" t then
    let '(neg, body) := read_sign (str_remove "_" t) in
    let low := str_lower body in
    if String.eqb low "inf" || String.eqb low "infinity" then Return (S754_infinity neg)
    else if String.eqb low "nan" then Return S754_nan
    else match read_decimal neg body with
         | Some x => Return x
         | None => Raise ValueError
         end
  else Raise ValueError.

(** The limit on the number of digits [int()] converts (CPython 3.11 and
    later; earlier versions have none). *)
Definition max_str_digits : Z := 4300.

(** Digits with single underscores between them, up to the end of the text or
    to white space: the value and the number of digits. *)
Fixpoint read_int_digits (prev_digit : bool) (acc count : Z) (s : string) : option (Z * Z * string) :=
  match s with
  | EmptyString => if prev_digit then Some (acc, count, s) else None
  | String c r =>
    if is_digit c then read_int_digits true (10 * acc + digit_of c) (count + 1) r
    else if Ascii.eqb c "_" then
      if prev_digit then read_int_digits false acc count r else None
    else if prev_digit then Some (acc, count, s) else None
  end.

(** [int(s)] for a [str], base ten. *)
Definition py_int (s : string) : outcome Z :=
  let '(neg, body) := read_sign (str_lstrip s) in
  match read_int_digits false 0 0 body with
  | Some (v, n, rest) =>
    if str_truthy (str_lstrip rest) then Raise ValueError
    else if max_str_digits <? n then Raise ValueError
    else Return (cond_Zopp neg v)
  | None => Raise ValueError
  end.

(** ** Numeric shorthand: [parse_number] *)

Definition parse_number (s : option string) : outcome (option float) :=
  if negb (truthy s) then Return None
  else
    let s := str_remove "," (str_strip (default "" s)) in
    let mult := float_of_Z 1 in
    let s := if str_endswith s "%" then str_remove "%" s else s in
    let '(mult, s) :=
      if str_endswith s "K" then (float_of_decimal false 1 3, str_remove "K" s)
      else if str_endswith s "M" then (float_of_decimal false 1 6, str_remove "M" s)
      else (mult, s) in
    try_except_ValueError
      (x ← py_float s; mret (Some (float_mul x mult)))
      (Return None).

(** ** Dates and times ([datetime], [dateutil.tz]) *)

(** Times and durations are counted in microseconds.  A wall-clock reading is
    the number of microseconds since 0001-01-01 00:00:00 of the proleptic
    Gregorian calendar. *)
Definition US_PER_SECOND : Z := 1000000.
Definition US_PER_MINUTE : Z := 60 * US_PER_SECOND.
Definition US_PER_HOUR : Z := 60 * US_PER_MINUTE.
Definition US_PER_DAY : Z := 24 * US_PER_HOUR.

(** [datetime.min] is reading 0; [datetime.max] is the last microsecond of
    9999-12-31, day 3652058 after 0001-01-01. *)
Definition MAX_WALL : Z := 3652059 * US_PER_DAY.

Definition wall_in_range (w : Z) : bool := (0 <=? w) && (w <? MAX_WALL).

(** A time zone object.  [utcoffset w fold] is the offset from UTC of the
    wall-clock reading [w] (with its [fold] flag, which tells the second
    occurrence of a repeated reading from the first); [fromutc u] is the
    wall-clock reading, and its fold flag, of the UTC reading [u]. *)
Record tzinfo : Type := mk_tzinfo {
  utcoffset : Z -> bool -> Z;
  fromutc : Z -> Z * bool
}.

(** [tz.UTC] *)
Definition tz_UTC : tzinfo :=
  {| utcoffset := fun _ _ => 0; fromutc := fun u => (u, false) |}.

(** A [datetime]: naive when [dt_tzinfo] is [None], aware otherwise. *)
Record datetime : Type := mk_datetime {
  wall : Z;
  fold : bool;
  dt_tzinfo : option tzinfo
}.

(** What the program takes from outside itself. *)
Record PyEnv : Type := mk_env {
  (** [dateutil.parser.parse]: the parsed date and time, or the exception *)
  dateparser_parse : string -> outcome datetime;
  (** [dateutil.tz.gettz]: the zone of that name, [None] for a name that is
      not in the time zone data base *)
  tz_gettz : string -> option tzinfo;
  (** the local zone of the platform, which [datetime] consults for naive
      values and for [astimezone(None)] *)
  local_zone : tzinfo
}.

(** [dt.replace(tzinfo=tz)] *)
Definition replace_tzinfo (dt : datetime) (tz : option tzinfo) : datetime :=
  {| wall := wall dt; fold := fold dt; dt_tzinfo := tz |}.

(** A [timedelta] holds between -999999999 days and 999999999 days,
    23:59:59.999999. *)
Definition timedelta (us : Z) : outcome Z :=
  if (-999999999 * US_PER_DAY <=? us) && (us <? 1000000000 * US_PER_DAY)
  then Return us else Raise OverflowError.

(** [dt + delta]: wall-clock arithmetic; the zone stays, the fold flag is
    cleared. *)
Definition dt_add (dt : datetime) (delta : Z) : outcome datetime :=
  let w := wall dt + delta in
  if wall_in_range w then Return {| wall := w; fold := false; dt_tzinfo := dt_tzinfo dt |}
  else Raise OverflowError.

(** [dt.astimezone(tz)].  A naive [dt] is read in the local zone, and
    [tz = None] stands for the local zone.  (CPython returns [dt] itself
    when [tz] is the very object [dt] carries; the two routes agree whenever
    the zone maps the UTC reading of [dt] back to [dt].) *)
Definition astimezone (env : PyEnv) (dt : datetime) (tz : option tzinfo) : outcome datetime :=
  let mytz := default (local_zone env) (dt_tzinfo dt) in
  let utc := wall dt - utcoffset mytz (wall dt) (fold dt) in
  if wall_in_range utc then
    let target := default (local_zone env) tz in
    let '(w, f) := fromutc target utc in
    if wall_in_range w then Return {| wall := w; fold := f; dt_tzinfo := Some target |}
    else Raise OverflowError
  else Raise OverflowError.

(** [a <= b]: two naive values compare by their readings, two aware values
    by their UTC readings; a naive and an aware value do not compare. *)
Definition dt_le (a b : datetime) : outcome bool :=
  match dt_tzinfo a, dt_tzinfo b with
  | None, None => Return (wall a <=? wall b)
  | Some za, Some zb =>
    Return (wall a - utcoffset za (wall a) (fold a) <=? wall b - utcoffset zb (wall b) (fold b))
  | _, _ => Raise TypeError
  end.

(** *** The calendar *)

Definition is_leap (y : Z) : bool :=
  (y mod 4 =? 0) && (negb (y mod 100 =? 0) || (y mod 400 =? 0)).

Definition days_in_month (y m : Z) : Z :=
  if m =? 2 then (if is_leap y then 29 else 28)
  else if (m =? 4) || (m =? 6) || (m =? 9) || (m =? 11) then 30
  else 31.

Definition days_before_year (y : Z) : Z :=
  let p := y - 1 in p * 365 + p / 4 - p / 100 + p / 400.

Definition days_in_year (y : Z) : Z := if is_leap y then 366 else 365.

(** Walk the months of year [y] from month [m] with [n] days left. *)
Fixpoint month_day (fuel : nat) (y m n : Z) : Z * Z :=
  match fuel with
  | O => (m, n + 1)
  | S fuel' =>
    let dim := days_in_month y m in
    if n <? dim then (m, n + 1) else month_day fuel' y (m + 1) (n - dim)
  end.

(** Year, month and day of the day number [n] (day 0 is 0001-01-01). *)
Definition ymd_of_days (n : Z) : Z * Z * Z :=
  let n400 := n / 146097 in
  let r400 := n mod 146097 in
  let n100 := Z.min 3 (r400 / 36524) in
  let r100 := r400 - n100 * 36524 in
  let n4 := r100 / 1461 in
  let r4 := r100 mod 1461 in
  let n1 := Z.min 3 (r4 / 365) in
  let r1 := r4 - n1 * 365 in
  let y := n400 * 400 + n100 * 100 + n4 * 4 + n1 + 1 in
  let '(m, d) := month_day 11 y 1 r1 in
  (y, m, d).

Definition days_before_month (y m : Z) : Z :=
  fold_left (fun acc k => acc + days_in_month y (Z.of_nat k)) (seq 1 (Z.to_nat (m - 1))) 0.

(** Day number of a calendar date. *)
Definition days_of_ymd (y m d : Z) : Z :=
  days_before_year y + days_before_month y m + (d - 1).

(** *** Rendering *)

Fixpoint digits_of (width : nat) (n : Z) : string :=
  match width with
  | O => EmptyString
  | S w => digits_of w (n / 10) +:+ String (ascii_of_N (Z.to_N (48 + n mod 10))) EmptyString
  end.

Definition render_date (w : Z) : string :=
  let '(y, m, d) := ymd_of_days (w / US_PER_DAY) in
  digits_of 4 y +:+ "-" +:+ digits_of 2 m +:+ "-" +:+ digits_of 2 d.

Definition render_hm (w : Z) : string :=
  let t := w mod US_PER_DAY in
  digits_of 2 (t / US_PER_HOUR) +:+ ":" +:+ digits_of 2 (t mod US_PER_HOUR / US_PER_MINUTE).

(** Seconds, and the microseconds when there are any. *)
Definition render_seconds (w : Z) : string :=
  let t := w mod US_PER_MINUTE in
  ":" +:+ digits_of 2 (t / US_PER_SECOND)
  +:+ (if t mod US_PER_SECOND =? 0 then "" else "." +:+ digits_of 6 (t mod US_PER_SECOND)).

(** The UTC offset as [+HH:MM], with the seconds when there are any. *)
Definition render_offset (off : Z) : string :=
  let a := Z.abs off in
  (if off <? 0 then "-" else "+") +:+ render_hm a
  +:+ (if a mod US_PER_MINUTE =? 0 then "" else render_seconds a).

(** [dt.isoformat()] *)
Definition isoformat (dt : datetime) : string :=
  render_date (wall dt) +:+ "T" +:+ render_hm (wall dt) +:+ render_seconds (wall dt)
  +:+ match dt_tzinfo dt with
      | Some z => render_offset (utcoffset z (wall dt) (fold dt))
      | None => ""
      end.

(** [dt.strftime("%Y-%m-%d %H:%M")] *)
Definition strftime_minutes (dt : datetime) : string :=
  render_date (wall dt) +:+ " " +:+ render_hm (wall dt).

(** ** Time normalisation: [convert_time] *)

Definition convert_time (env : PyEnv) (dt_str : string) (tz_from : option string) (tz_to : string)
  : outcome (option string * option string) :=
  try_except
    (dt_obj ← dateparser_parse env dt_str;
     let dt_obj :=
       if truthy tz_from then
         let from_zone := tz_gettz env (default "" tz_from) in
         replace_tzinfo dt_obj from_zone
       else replace_tzinfo dt_obj (Some tz_UTC) in
     utc_time ← astimezone env dt_obj (Some tz_UTC);
     local_time ← astimezone env dt_obj (tz_gettz env tz_to);
     mret (Some (isoformat utc_time), Some (strftime_minutes local_time)))
    (fun _ => Return (None, None)).

(** ** Canonical events *)

Definition IMPORTANCE_MAP : gmap string string :=
  {[ "low" := "low"; "medium" := "medium"; "high" := "high" ]}.

(** [d.get(key, fallback)] *)
Definition dict_get (d : gmap string string) (key fallback : string) : string :=
  default fallback (d !! key).

(** The dictionary built for one event, key by key. *)
Module Event.
Record t : Type := mk {
  provider : string;
  title : string;
  country : string;
  importance : string;
  time_utc : option string;
  time_local : option string;
  timezone : string;
  actual_value : option float;
  forecast_value : option float;
  previous_value : option float;
  id : string
}.
End Event.

(** What the body of the loop over the rows does with one row: it appends an
    event, it moves on to the next row ([continue]), or an exception reaches
    the [except] clause, which logs it and drops the row. *)
Inductive row_result : Type :=
| Appended (e : Event.t)
| Skipped
| Logged (ex : exn).

Definition row_result_of (r : outcome (option Event.t)) : row_result :=
  match r with
  | Return (Some e) => Appended e
  | Return None => Skipped
  | Raise ex => Logged ex
  end.

Definition appended (r : row_result) : option Event.t :=
  match r with
  | Appended e => Some e
  | _ => None
  end.

(** Truth value of a list: the empty list is false. *)
Definition list_truthy {A : Type} (l : list A) : bool :=
  match l with
  | [] => false
  | _ :: _ => true
  end.

(** *** ForexFactory *)

(** One [tr.calendar_row]: for each selector, the stripped text of the cell
    that [select_one] finds, or [None] when it finds none. *)
Record ff_row : Type := mk_ff_row {
  time_cell : option string;
  title_cell : option string;
  country_cell : option string;
  impact_cell : option string;
  actual_cell : option string;
  forecast_cell : option string;
  previous_cell : option string
}.

(** [cell.get_text(strip=True)]; on [None] the attribute is missing. *)
Definition get_text (cell : option string) : outcome string :=
  match cell with
  | Some text => Return text
  | None => Raise AttributeError
  end.

(** [parse_number(cell.get_text(strip=True)) if cell else None] *)
Definition parse_cell (cell : option string) : outcome (option float) :=
  match cell with
  | Some text => parse_number (Some text)
  | None => Return None
  end.

(** The body of the [try] for one row; [Return None] is [continue]. *)
Definition ff_row_body (env : PyEnv) (countries importance : list string) (row : ff_row)
  : outcome (option Event.t) :=
  match title_cell row with
  | None => Return None
  | Some title =>
    let country := default "" (country_cell row) in
    let imp := match impact_cell row with
               | Some text => str_lower text
               | None => "medium"
               end in
    if list_truthy countries && negb (str_in country countries) then Return None
    else if list_truthy importance && negb (str_in imp importance) then Return None
    else
      dt_str ← get_text (time_cell row);
      times ← convert_time env dt_str (Some "America/New_York") "UTC";
      let '(utc_time, local_time) := times in
      actual ← parse_cell (actual_cell row);
      forecast ← parse_cell (forecast_cell row);
      previous ← parse_cell (previous_cell row);
      mret (Some {| Event.provider := "forex_factory";
                    Event.title := title;
                    Event.country := country;
                    Event.importance := dict_get IMPORTANCE_MAP imp "medium";
                    Event.time_utc := utc_time;
                    Event.time_local := local_time;
                    Event.timezone := "UTC";
                    Event.actual_value := actual;
                    Event.forecast_value := forecast;
                    Event.previous_value := previous;
                    Event.id := sha1_id [Some "forex_factory"; Some title; Some country; utc_time] |})
  end.

Definition ff_row_result (env : PyEnv) (countries importance : list string) (row : ff_row) : row_result :=
  row_result_of (ff_row_body env countries importance row).

(** The loop of [fetch] over the rows: the events appended, in order. *)
Definition ff_events (env : PyEnv) (countries importance : list string) (rows : list ff_row)
  : list Event.t :=
  omap (fun row => appended (ff_row_result env countries importance row)) rows.

(** [ForexFactoryProvider.fetch], given what the request brought back: the
    status code of the response and the rows [tr.calendar_row] of the page. *)
Definition ForexFactoryProvider_fetch (env : PyEnv) (status_code : Z) (rows : list ff_row)
           (countries importance : list string) : list Event.t :=
  if negb (status_code =? 200) then []
  else ff_events env countries importance rows.

(** *** Investing.com *)

(** One [tr.js-event-item]: the attributes of the row, [None] for one that
    the row does not have. *)
Record investing_row : Type := mk_investing_row {
  data_event_title : option string;
  data_country : option string;
  data_event_importance : option string;
  data_event_datetime : option string
}.

Definition investing_row_body (env : PyEnv) (countries importance : list string) (row : investing_row)
  : outcome (option Event.t) :=
  let title := default "" (data_event_title row) in
  let country := default "" (data_country row) in
  let imp := str_lower (default "medium" (data_event_importance row)) in
  let dt_str := default "" (data_event_datetime row) in
  times ← convert_time env dt_str (Some "UTC") "UTC";
  let '(utc_time, local_time) := times in
  if list_truthy countries && negb (str_in country countries) then Return None
  else if list_truthy importance && negb (str_in imp importance) then Return None
  else
    mret (Some {| Event.provider := "investing_com";
                  Event.title := title;
                  Event.country := country;
                  Event.importance := dict_get IMPORTANCE_MAP imp "medium";
                  Event.time_utc := utc_time;
                  Event.time_local := local_time;
                  Event.timezone := "UTC";
                  Event.actual_value := None;
                  Event.forecast_value := None;
                  Event.previous_value := None;
                  Event.id := sha1_id [Some "investing_com"; Some title; Some country; utc_time] |}).

Definition investing_row_result (env : PyEnv) (countries importance : list string) (row : investing_row)
  : row_result :=
  row_result_of (investing_row_body env countries importance row).

(** The loop of [fetch] over the rows: the events appended, in order. *)
Definition investing_events (env : PyEnv) (countries importance : list string)
           (rows : list investing_row) : list Event.t :=
  omap (fun row => appended (investing_row_result env countries importance row)) rows.

(** [InvestingProvider.fetch], given the status code of the response and the
    rows [tr.js-event-item] of the page. *)
Definition InvestingProvider_fetch (env : PyEnv) (status_code : Z) (rows : list investing_row)
           (countries importance : list string) : list Event.t :=
  if negb (status_code =? 200) then []
  else investing_events env countries importance rows.

(** ** Notification: [notify_upcoming] *)

(** [s[:-1]] *)
Fixpoint str_init (s : string) : string :=
  match s with
  | EmptyString => EmptyString
  | String c EmptyString => EmptyString
  | String c r => String c (str_init r)
  end.

(** [s[-1]] *)
Fixpoint str_last (s : string) : outcome ascii :=
  match s with
  | EmptyString => Raise IndexError
  | String c EmptyString => Return c
  | String _ r => str_last r
  end.

(** [datetime.now(tz=tz)] when the clock reads [clock] (UTC): aware in [tz],
    or naive in the local zone for [tz = None]. *)
Definition datetime_now (env : PyEnv) (clock : Z) (tz : option tzinfo) : outcome datetime :=
  let '(w, f) := fromutc (default (local_zone env) tz) clock in
  if wall_in_range w then Return {| wall := w; fold := f; dt_tzinfo := tz |}
  else Raise OverflowError.

(** The test made on one event: [Return true] when its line is printed. *)
Definition notify_test (env : PyEnv) (now until : datetime) (e : Event.t) : outcome bool :=
  if negb (truthy (Event.time_utc e)) then Return false
  else
    ev_time ← dateparser_parse env (default "" (Event.time_utc e));
    lo ← astimezone env now (Some tz_UTC);
    started ← dt_le lo ev_time;
    if (started : bool) then
      hi ← astimezone env until (Some tz_UTC);
      dt_le ev_time hi
    else Return false.

(** The loop over the events: the events whose line has been printed so far,
    in the order of printing, and how the loop ends. *)
Fixpoint notify_loop (env : PyEnv) (now until : datetime) (events printed : list Event.t)
  : list Event.t * outcome unit :=
  match events with
  | [] => (printed, Return tt)
  | e :: rest =>
    match notify_test env now until e with
    | Return true => notify_loop env now until rest (printed ++ [e])
    | Return false => notify_loop env now until rest printed
    | Raise ex => (printed, Raise ex)
    end
  end.

(** The window: [timedelta(hours=num)], [timedelta(minutes=num)] or
    [timedelta(hours=24)]. *)
Definition window_delta (window : string) : outcome Z :=
  num ← py_int (str_init window);
  unit ← str_last window;
  if Ascii.eqb unit "h" then timedelta (num * US_PER_HOUR)
  else if Ascii.eqb unit "m" then timedelta (num * US_PER_MINUTE)
  else timedelta (24 * US_PER_HOUR).

(** [notify_upcoming(events, window, tz_name)] run when the clock reads
    [clock]: the events whose line is printed (each line is made of the
    event's local time, country, title and importance), and the way the call
    ends. *)
Definition notify_upcoming (env : PyEnv) (clock : Z) (events : list Event.t) (window tz_name : string)
  : list Event.t * outcome unit :=
  match (now ← datetime_now env clock (tz_gettz env tz_name);
         delta ← window_delta window;
         until ← dt_add now delta;
         mret (now, until)) with
  | Return (now, until) => notify_loop env now until events []
  | Raise ex => ([], Raise ex)
  end.

(** ** A small environment to run the program in

    A stand-in for the libraries, used to evaluate the program on concrete
    inputs: a parser for the two layouts [YYYY-MM-DD HH:MM] (naive) and
    [YYYY-MM-DDTHH:MM:SS+00:00] (aware, UTC), which [dateutil] reads the same
    way, and the zones UTC, America/New_York and Europe/Madrid with their
    rules of the year 2024. *)
Module Fixture.

(** Exactly [n] digits. *)
Fixpoint read_fixed (n : nat) (acc : Z) (s : string) : option (Z * string) :=
  match n with
  | O => Some (acc, s)
  | S n' =>
    match s with
    | String c r => if is_digit c then read_fixed n' (10 * acc + digit_of c) r else None
    | EmptyString => None
    end
  end.

(** The character [c]. *)
Definition expect (c : ascii) (s : string) : option string :=
  match s with
  | String d r => if Ascii.eqb c d then Some r else None
  | EmptyString => None
  end.

(** The reading of a calendar date and time of day. *)
Definition reading (y m d hh mm ss : Z) : Z :=
  days_of_ymd y m d * US_PER_DAY + hh * US_PER_HOUR + mm * US_PER_MINUTE + ss * US_PER_SECOND.

Definition valid_fields (y m d hh mm ss : Z) : bool :=
  (1 <=? y) && (1 <=? m) && (m <=? 12) && (1 <=? d) && (d <=? days_in_month y m)
  && (hh <? 24) && (mm <? 60) && (ss <? 60).

Definition parse_fields (s : string) : option datetime :=
  '(y, s) ← read_fixed 4 0 s;
  s ← expect "-" s;
  '(m, s) ← read_fixed 2 0 s;
  s ← expect "-" s;
  '(d, s) ← read_fixed 2 0 s;
  s ← match s with
      | String " " r | String "T" r => Some r
      | _ => None
      end;
  '(hh, s) ← read_fixed 2 0 s;
  s ← expect ":" s;
  '(mm, s) ← read_fixed 2 0 s;
  '(ss, s) ← match s with
             | String ":" r => read_fixed 2 0 r
             | _ => Some (0, s)
             end;
  tz ← (if String.eqb s "" then Some None
        else if String.eqb s "+00:00" then Some (Some tz_UTC)
        else None);
  if valid_fields y m d hh mm ss
  then Some {| wall := reading y m d hh mm ss; fold := false; dt_tzinfo := tz |}
  else None.

Definition parse (s : string) : outcome datetime :=
  match parse_fields s with
  | Some dt => Return dt
  | None => Raise ValueError
  end.

(** A zone with standard offset [std] and, between the UTC readings
    [start] and [stop], the summer offset [dst]. *)
Definition summer_zone (std dst start stop : Z) : tzinfo :=
  {| utcoffset := fun w fold =>
       if (start + std <=? w) && (w <? stop + (if fold then std else dst)) then dst else std;
     fromutc := fun u =>
       if (start <=? u) && (u <? stop) then (u + dst, false)
       else (u + std, (stop <=? u) && (u <? stop + (dst - std))) |}.

Definition new_york : tzinfo :=
  summer_zone (-5 * US_PER_HOUR) (-4 * US_PER_HOUR)
              (reading 2024 3 10 7 0 0) (reading 2024 11 3 6 0 0).

Definition madrid : tzinfo :=
  summer_zone (1 * US_PER_HOUR) (2 * US_PER_HOUR)
              (reading 2024 3 31 1 0 0) (reading 2024 10 27 1 0 0).

Definition gettz (name : string) : option tzinfo :=
  if String.eqb name "UTC" then Some tz_UTC
  else if String.eqb name "America/New_York" then Some new_york
  else if String.eqb name "Europe/Madrid" then Some madrid
  else None.

(** The platform runs on UTC. *)
Definition env : PyEnv :=
  {| dateparser_parse := parse; tz_gettz := gettz; local_zone := tz_UTC |}.

End Fixture.

(** ** Notions used to state the properties *)

(** The character [c] occurs in [s]. *)
Fixpoint str_has (c : ascii) (s : string) : bool :=
  match s with
  | EmptyString => false
  | String d r => Ascii.eqb c d || str_has c r
  end.

(** A field in which the separator of [sha1_id] does not occur. *)
Definition pipe_free (a : option string) : bool :=
  negb (str_has "|" (default "" a)).

(** The instant (UTC reading) an event's [time_utc] denotes, when the event
    has one and it parses to an aware value. *)
Definition event_instant (env : PyEnv) (e : Event.t) : option Z :=
  if truthy (Event.time_utc e) then
    match dateparser_parse env (default "" (Event.time_utc e)) with
    | Return dt =>
      match dt_tzinfo dt with
      | Some z => Some (wall dt - utcoffset z (wall dt) (fold dt))
      | None => None
      end
    | Raise _ => None
    end
  else None.

(** The event has an instant, and it lies in the closed interval
    [[lo, hi]]. *)
Definition in_window (env : PyEnv) (lo hi : Z) (e : Event.t) : bool :=
  match event_instant env e with
  | Some t => (lo <=? t) && (t <=? hi)
  | None => false
  end.

(** The lowercased importance label the providers filter on. *)
Definition ff_imp (row : ff_row) : string :=
  match impact_cell row with
  | Some text => str_lower text
  | None => "medium"
  end.

Definition investing_imp (row : investing_row) : string :=
  str_lower (default "medium" (data_event_importance row)).

(** The record passes the country filter. *)
Definition country_passes (countries : list string) (country : string) : bool :=
  negb (list_truthy countries && negb (str_in country countries)).

(** A sample event with the given title and [time_utc]. *)
Definition sample_event (title : string) (time_utc : option string) : Event.t :=
  {| Event.provider := "investing_com";
     Event.title := title;
     Event.country := "US";
     Event.importance := "high";
     Event.time_utc := time_utc;
     Event.time_local := time_utc;
     Event.timezone := "UTC";
     Event.actual_value := None;
     Event.forecast_value := None;
     Event.previous_value := None;
     Event.id := sha1_id [Some "investing_com"; Some title; Some "US"; time_utc] |}.

(** The first character of an encoded text can be read back. *)
Definition utf8_head (bytes : list Z) : option (ascii * list Z) :=
  match bytes with
  | [] => None
  | b :: r =>
    if b <? 128 then Some (ascii_of_N (Z.to_N b), r)
    else match r with
         | b2 :: r' => Some (ascii_of_N (Z.to_N ((b - 192) * 64 + (b2 - 128))), r')
         | [] => None
         end
  end.

(** A canonical importance level. *)
Definition canonical (imp : string) : Prop :=
  imp = "low" \/ imp = "medium" \/ imp = "high".

(** The zone [convert_time] attaches to the parsed value. *)
Definition source_zone (env : PyEnv) (tz_from : option string) : option tzinfo :=
  if truthy tz_from then tz_gettz env (default "" tz_from) else Some tz_UTC.

(** ** Notions used to state further properties *)

(** Every character of [s] satisfies [p]. *)
Fixpoint str_forall (p : ascii -> bool) (s : string) : bool :=
  match s with
  | EmptyString => true
  | String c r => p c && str_forall p r
  end.

(** A digit or one of the letters [a] to [f]. *)
Definition is_lower_hex (c : ascii) : bool :=
  is_digit c || ((97 <=? code c) && (code c <=? 102)).

(** The characters a text that [float()] accepts is made of: white space,
    digits, signs, the point, the underscore, and the letters of the
    exponent mark, of [inf], [infinity] and [nan], in either case. *)
Definition float_char (c : ascii) : bool :=
  is_space c || is_digit c
  || str_has c "+-._"
  || str_has (chr_lower c) "einftya".

(** The first character of a number: a digit or the point. *)
Definition starts_number (d : ascii) : bool := is_digit d || Ascii.eqb d ".".

(** The results of [float()] on a text and on the text with a minus sign
    before it. *)
Definition opp_outcome (r : outcome float) : outcome float :=
  match r with
  | Return x => Return (SFopp x)
  | Raise e => Raise e
  end.

(** The result of [parse_number] with the sign of its value changed. *)
Definition opp_result (r : outcome (option float)) : outcome (option float) :=
  match r with
  | Return (Some x) => Return (Some (SFopp x))
  | _ => r
  end.

(** What every event of a provider satisfies: the provider's name, the zone
    label, an identifier that is the digest of the event's own provider,
    title, country and [time_utc], and a local time that is there exactly
    when [time_utc] is. *)
Definition event_well_formed (provider : string) (e : Event.t) : Prop :=
  Event.provider e = provider
  /\ Event.timezone e = "UTC"
  /\ Event.id e = sha1_id [Some (Event.provider e); Some (Event.title e); Some (Event.country e);
                           Event.time_utc e]
  /\ (Event.time_utc e = None <-> Event.time_local e = None).

(** The events whose country the allow-list lets through. *)
Definition keep_countries (countries : list string) (events : list Event.t) : list Event.t :=
  List.filter (fun e => country_passes countries (Event.country e)) events.

(** The title and the country a row shows. *)
Definition investing_title_country (row : investing_row) : string * string :=
  (default "" (data_event_title row), default "" (data_country row)).

(** ** Saving to SQLite: [save_sqlite] *)

(** What a [REAL] column holds for a value: [NULL] for an absent value, and
    for a value that is not a number, which SQLite stores as [NULL]. *)
Definition real_column (v : option float) : option float :=
  match v with
  | Some S754_nan => None
  | _ => v
  end.

(** The row [INSERT] binds for an event: the values of the eleven columns. *)
Definition sqlite_row (e : Event.t) : Event.t :=
  {| Event.provider := Event.provider e;
     Event.title := Event.title e;
     Event.country := Event.country e;
     Event.importance := Event.importance e;
     Event.time_utc := Event.time_utc e;
     Event.time_local := Event.time_local e;
     Event.timezone := Event.timezone e;
     Event.actual_value := real_column (Event.actual_value e);
     Event.forecast_value := real_column (Event.forecast_value e);
     Event.previous_value := real_column (Event.previous_value e);
     Event.id := Event.id e |}.

(** [INSERT OR IGNORE INTO events ... VALUES ...] on the table [events],
    whose rows are kept by their primary key [id]: a row whose key is taken
    is not inserted. *)
Definition insert_or_ignore (table : gmap string Event.t) (e : Event.t) : gmap string Event.t :=
  match table !! Event.id e with
  | Some _ => table
  | None => <[Event.id e := sqlite_row e]> table
  end.

(** [save_sqlite(events, path)], on the table [events] of the data base at
    [path] (empty when the data base is new): the table after the
    [commit]. *)
Definition save_sqlite (events : list Event.t) (table : gmap string Event.t) : gmap string Event.t :=
  fold_left insert_or_ignore events table.

(** ** The sinks and the command line: [save_csv], [save_json], [main] *)

(** The keys of an event's dictionary, in the order in which a provider
    sets them. *)
Definition EVENT_KEYS : list string :=
  ["provider"; "title"; "country"; "importance"; "time_utc"; "time_local"; "timezone";
   "actual_value"; "forecast_value"; "previous_value"; "id"].

(** What a sink has been handed over: for CSV the path, the field names of
    the header and the events of the rows; for JSON and SQLite the path and
    the events. *)
Inductive sink_call : Type :=
| Csv (path : string) (fieldnames : list string) (events : list Event.t)
| Json (path : string) (events : list Event.t)
| Sqlite (path : string) (events : list Event.t).

(** [save_csv(events, path)]: [events[0]] raises [IndexError] on an empty
    list, before the file is opened. *)
Definition save_csv (events : list Event.t) (path : string) : outcome sink_call :=
  match events with
  | [] => Raise IndexError
  | _ :: _ => Return (Csv path EVENT_KEYS events)
  end.

Definition save_json (events : list Event.t) (path : string) : outcome sink_call :=
  Return (Json path events).

(** What [main] does that can be seen: a write by a sink, a line printed by
    [notify_upcoming]. *)
Inductive effect : Type :=
| Saved (call : sink_call)
| Printed (e : Event.t).

(** How [main] ends: [sys.exit(code)], or an exception nobody catches. *)
Inductive ending : Type :=
| Exit (code : Z)
| Uncaught (ex : exn).

(** The arguments [main] uses after [parse_args]. *)
Module Args.
Record t : Type := mk {
  providers : list string;
  countries : list string;
  importance : list string;
  tz : string;
  out_format : list string;
  out_dir : string;
  sqlite_path : string;
  notify : option string;
  notify_window : string
}.
End Args.

(** What the two sites answer: a status code and the rows of the page. *)
Record Web : Type := mk_web {
  ff_status : Z;
  ff_page : list ff_row;
  investing_status : Z;
  investing_page : list investing_row
}.

(** [os.path.join(a, b)] for a [b] that does not begin with a slash (POSIX). *)
Definition path_join (a b : string) : string :=
  if negb (str_truthy a) || str_endswith a "/" then a +:+ b else a +:+ "/" +:+ b.

(** [strftime("%Y%m%d_%H%M%S")] of a reading. *)
Definition timestamp (w : Z) : string :=
  let '(y, m, d) := ymd_of_days (w / US_PER_DAY) in
  let t := w mod US_PER_DAY in
  digits_of 4 y +:+ digits_of 2 m +:+ digits_of 2 d +:+ "_"
  +:+ digits_of 2 (t / US_PER_HOUR) +:+ digits_of 2 (t mod US_PER_HOUR / US_PER_MINUTE)
  +:+ digits_of 2 (t mod US_PER_MINUTE / US_PER_SECOND).

(** The events of the providers that are asked for: ForexFactory first, then
    Investing.com. *)
Definition all_events (env : PyEnv) (web : Web) (args : Args.t) : list Event.t :=
  (if str_in "forex_factory" (Args.providers args)
   then ForexFactoryProvider_fetch env (ff_status web) (ff_page web)
          (Args.countries args) (Args.importance args)
   else [])
  ++ (if str_in "investing_com" (Args.providers args)
      then InvestingProvider_fetch env (investing_status web) (investing_page web)
             (Args.countries args) (Args.importance args)
      else []).

(** The three [if ... in args.out_format] of [main], in their order; an
    exception of a sink ends the sequence. *)
Definition run_sinks (events : list Event.t) (args : Args.t) (ts : string)
  : list effect * outcome unit :=
  let step (enabled : bool) (call : outcome sink_call) (k : list effect * outcome unit)
      : list effect * outcome unit :=
    if enabled then
      match call with
      | Return c => let '(rest, r) := k in (Saved c :: rest, r)
      | Raise ex => ([], Raise ex)
      end
    else k in
  step (str_in "csv" (Args.out_format args))
       (save_csv events (path_join (Args.out_dir args) ("events_" +:+ ts +:+ ".csv")))
    (step (str_in "json" (Args.out_format args))
          (save_json events (path_join (Args.out_dir args) ("events_" +:+ ts +:+ ".json")))
       (step (str_in "sqlite" (Args.out_format args))
             (Return (Sqlite (Args.sqlite_path args) events))
          ([], Return tt))).

(** [main()] from the loop over the providers on, once the arguments are
    parsed, logging is set up and the output directory is there; the sites
    answer [web], the clock reads [clock_saved] when the files are named and
    [clock_notify] when the notification starts, and the sinks can write. *)
Definition main (env : PyEnv) (web : Web) (clock_saved clock_notify : Z) (args : Args.t)
  : list effect * ending :=
  let events := all_events env web args in
  if negb (list_truthy events) then ([], Exit 2)
  else
    match run_sinks events args (timestamp clock_saved) with
    | (saved, Raise ex) => (saved, Uncaught ex)
    | (saved, Return _) =>
      if bool_decide (Args.notify args = Some "upcoming") then
        match notify_upcoming env clock_notify events (Args.notify_window args) (Args.tz args) with
        | (printed, Return _) => (saved ++ (Printed <$> printed), Exit 0)
        | (printed, Raise ex) => (saved ++ (Printed <$> printed), Uncaught ex)
        end
      else (saved, Exit 0)
    end.

(** The writes [main] asks for, for a list of events and a time stamp: CSV,
    JSON and SQLite, each when its name is among the formats. *)
Definition requested_writes (events : list Event.t) (args : Args.t) (ts : string) : list effect :=
  (if str_in "csv" (Args.out_format args)
   then [Saved (Csv (path_join (Args.out_dir args) ("events_" +:+ ts +:+ ".csv")) EVENT_KEYS events)]
   else [])
  ++ (if str_in "json" (Args.out_format args)
      then [Saved (Json (path_join (Args.out_dir args) ("events_" +:+ ts +:+ ".json")) events)]
      else [])
  ++ (if str_in "sqlite" (Args.out_format args)
      then [Saved (Sqlite (Args.sqlite_path args) events)]
      else []).

(** The bytes that are hashed for the identifier of an event. *)
Definition event_message (e : Event.t) : list Z :=
  utf8_encode (sha1_text [Some (Event.provider e); Some (Event.title e); Some (Event.country e);
                          Event.time_utc e]).

(** * Properties *)

(** ** SHA-1 on the test vectors of the standard *)

Example sha1_empty : Sha1.hexdigest [] = "da39a3ee5e6b4b0d3255bfef95601890afd80709".
Proof. vm_compute. reflexivity. Qed.

Example sha1_abc : Sha1.hexdigest (utf8_encode "abc") = "a9993e364706816aba3e25717850c26c9cd0d89d".
Proof. vm_compute. reflexivity. Qed.

Example sha1_two_blocks :
  Sha1.hexdigest (utf8_encode "abcdbcdecdefdefgefghfghighijhijkijkljklmklmnlmnomnopnopq")
  = "84983e441c3bd26ebaae4aa1f95129e5e54670f1".
Proof. vm_compute. reflexivity. Qed.


(** ** Strings and bytes *)

Lemma code_bounds (c : ascii) : 0 <= code c < 256.
Proof.
  unfold code. pose proof (N_ascii_bounded c). lia.
Qed.

Lemma utf8_head_char (c : ascii) (rest : list Z) :
  utf8_head (utf8_char c ++ rest) = Some (c, rest).
Proof.
  destruct c as [[] [] [] [] [] [] [] []]; reflexivity.
Qed.

Lemma utf8_encode_inj (s s' : string) :
  utf8_encode s = utf8_encode s' -> s = s'.
Proof.
  revert s'. induction s as [|c r IH]; intros [|c' r'] H; simpl in H.
  - reflexivity.
  - pose proof (utf8_head_char c' (utf8_encode r')) as E. rewrite <- H in E. discriminate.
  - pose proof (utf8_head_char c (utf8_encode r)) as E. rewrite H in E. discriminate.
  - pose proof (utf8_head_char c (utf8_encode r)) as E.
    rewrite H, utf8_head_char in E. injection E as -> E'.
    f_equal. apply IH. symmetry. exact E'.
Qed.

(** Two texts without the separator that are followed by the separator begin
    the same text only if they are equal. *)
Lemma split_at_separator (c : ascii) (s s' r r' : string) :
  str_has c s = false -> str_has c s' = false ->
  (s ++ String c r)%string = (s' ++ String c r')%string -> s = s' /\ r = r'.
Proof.
  revert s'. induction s as [|d t IH]; intros [|d' t'] Hs Hs' H; simpl in *.
  - injection H as ->. split; reflexivity.
  - injection H as <- _. rewrite Ascii.eqb_refl in Hs'. discriminate.
  - injection H as -> _. rewrite Ascii.eqb_refl in Hs. discriminate.
  - injection H as -> H. apply orb_false_iff in Hs as [_ Hs], Hs' as [_ Hs'].
    destruct (IH t' Hs Hs' H) as [-> ->]. split; reflexivity.
Qed.

Lemma str_join_inj (parts parts' : list string) :
  length parts = length parts' ->
  Forall (fun s => str_has "|" s = false) parts ->
  Forall (fun s => str_has "|" s = false) parts' ->
  str_join "|" parts = str_join "|" parts' -> parts = parts'.
Proof.
  unfold str_join. revert parts'.
  induction parts as [|s l IH]; intros [|s' l'] Hlen Hp Hp' H; try discriminate.
  - reflexivity.
  - inversion Hp as [|? ? Hs Hl]; inversion Hp' as [|? ? Hs' Hl']; subst.
    destruct l as [|s2 l]; destruct l' as [|s2' l']; try discriminate.
    + simpl in H. congruence.
    + change (String.concat "|" (s :: s2 :: l)) with (s ++ String "|" (String.concat "|" (s2 :: l)))%string in H.
      change (String.concat "|" (s' :: s2' :: l')) with (s' ++ String "|" (String.concat "|" (s2' :: l')))%string in H.
      destruct (split_at_separator _ _ _ _ _ Hs Hs' H) as [-> Hr].
      f_equal. apply IH; auto.
Qed.

Lemma kept_fields_length (a b : list (option string)) :
  map truthy a = map truthy b -> length (kept_fields a) = length (kept_fields b).
Proof.
  revert b. induction a as [|x a IH]; intros [|y b] H; try discriminate; [reflexivity|].
  simpl in H. injection H as Hxy H. specialize (IH b H).
  destruct x as [s|], y as [s'|]; simpl in *; try rewrite <- Hxy;
    try destruct (str_truthy s); try destruct (str_truthy s'); simpl; try discriminate; congruence.
Qed.

Lemma kept_fields_pipe_free (a : list (option string)) :
  Forall (fun x => pipe_free x = true) a ->
  Forall (fun s => str_has "|" s = false) (kept_fields a).
Proof.
  induction 1 as [|x a Hx _ IH]; simpl; [constructor|].
  destruct x as [s|]; [|exact IH].
  destruct (str_truthy s); [|exact IH].
  constructor; [|exact IH].
  unfold pipe_free in Hx. simpl in Hx. now apply negb_true_iff in Hx.
Qed.

(** ** Identity hashing *)

(** C1 (as amended).  Identical tuples have the same digest, and so have
    tuples with the same non-empty fields.  When two tuples have their empty
    or absent fields at the same places and no field contains the separator
    ["|"], the byte strings that are hashed for them are equal only if the
    tuples have the same non-empty fields: tuples that differ are hashed from
    different messages, so their digests differ unless SHA-1 collides. *)
Theorem sha1_id_separates_clean_tuples (a b : list (option string)) :
  map truthy a = map truthy b ->
  Forall (fun x => pipe_free x = true) a ->
  Forall (fun x => pipe_free x = true) b ->
  (utf8_encode (sha1_text a) = utf8_encode (sha1_text b) <-> kept_fields a = kept_fields b)
  /\ (kept_fields a = kept_fields b -> sha1_id a = sha1_id b).
Proof.
  intros Hshape Ha Hb. split; [split|].
  - intros H. apply utf8_encode_inj in H. unfold sha1_text in H.
    apply str_join_inj; auto using kept_fields_length, kept_fields_pipe_free.
  - intros H. unfold sha1_text. now rewrite H.
  - intros H. unfold sha1_id, sha1_text. now rewrite H.
Qed.

Lemma sha1_id_separates_clean_tuples_witness :
  let a := [Some "investing_com"; Some "CPI"; Some "US"; None] in
  let b := [Some "investing_com"; Some "GDP"; Some "US"; None] in
  (utf8_encode (sha1_text a) = utf8_encode (sha1_text b) <-> kept_fields a = kept_fields b)
  /\ (kept_fields a = kept_fields b -> sha1_id a = sha1_id b).
Proof.
  apply sha1_id_separates_clean_tuples.
  - reflexivity.
  - repeat constructor.
  - repeat constructor.
Defined.

(** C1 (as stated) fails: an event with title ["US"] and no country and an
    event with no title and country ["US"] are different tuples, yet the same
    text is hashed for both, so they always get the same digest. *)
Lemma sha1_id_shifted_field_collides :
  [Some "investing_com"; Some "US"; Some ""; None] <> [Some "investing_com"; Some ""; Some "US"; None]
  /\ sha1_id [Some "investing_com"; Some "US"; Some ""; None]
     = sha1_id [Some "investing_com"; Some ""; Some "US"; None].
Proof.
  split; [discriminate | reflexivity].
Qed.

(** The separator inside a field has the same effect. *)
Example sha1_id_separator_in_field :
  sha1_id [Some "p"; Some "a|b"; Some "c"; None] = sha1_id [Some "p"; Some "a"; Some "b|c"; None].
Proof. reflexivity. Qed.

(** C8.  The digest is computed from the arguments alone: it is the SHA-1 of
    the UTF-8 bytes of the non-empty fields joined by ["|"].  An absent
    [time_utc] and an empty one are both left out of the join, so the digests
    are the same. *)
Theorem sha1_id_absent_time_is_empty_time (p t c : option string) :
  sha1_id [p; t; c; None] = sha1_id [p; t; c; Some ""]
  /\ forall u, sha1_id [p; t; c; u] = Sha1.hexdigest (utf8_encode (str_join "|" (kept_fields [p; t; c; u]))).
Proof.
  split; [|reflexivity].
  assert (kept_fields [p; t; c; None] = kept_fields [p; t; c; Some ""]) as H.
  { destruct p as [p|], t as [t|], c as [c|]; simpl;
      repeat match goal with |- context [str_truthy ?s] => destruct (str_truthy s) end;
      reflexivity. }
  unfold sha1_id, sha1_text. now rewrite H.
Qed.

(** ** Numeric shorthand *)

(** [float()] raises nothing but [ValueError]. *)
Lemma py_float_raises_ValueError (s : string) (e : exn) :
  py_float s = Raise e -> e = ValueError.
Proof.
  unfold py_float.
  destruct (underscores_ok _ _); [|congruence].
  destruct (read_sign _) as [neg body].
  destruct (_ || _); [discriminate|].
  destruct (String.eqb _ _); [discriminate|].
  destruct (read_decimal _ _); congruence.
Qed.

Lemma try_py_float_returns (s : string) (mult : float) :
  exists r, try_except_ValueError
              (x ← py_float s; mret (Some (float_mul x mult))) (Return None) = Return r.
Proof.
  destruct (py_float s) as [x|e] eqn:E; simpl.
  - eauto.
  - apply py_float_raises_ValueError in E as ->. eauto.
Qed.

Lemma parse_number_returns (s : option string) :
  exists r, parse_number s = Return r.
Proof.
  unfold parse_number.
  destruct (negb (truthy s)); [eauto|].
  destruct (str_endswith _ "K"); [|destruct (str_endswith _ "M")];
    apply try_py_float_returns.
Qed.

(** C5.  [parse_number] returns for every optional string, and gives the
    listed values: 236000.0, 3.1 (the binary64 nearest to 31/10, which is
    6980579422424269 * 2^-51), 1200000.0, nothing for the empty string and
    for ["abc"], and -5000.0. *)
Theorem parse_number_never_raises_and_examples :
  (forall s : option string, exists r, parse_number s = Return r)
  /\ parse_number (Some "236K") = Return (Some (float_of_Z 236000))
  /\ parse_number (Some "3.1%") = Return (Some (S754_finite false 6980579422424269 (-51)))
  /\ parse_number (Some "1.2M") = Return (Some (float_of_Z 1200000))
  /\ parse_number (Some "") = Return None
  /\ parse_number (Some "abc") = Return None
  /\ parse_number (Some "-5K") = Return (Some (float_of_Z (-5000))).
Proof.
  split; [exact parse_number_returns|].
  repeat split; vm_compute; reflexivity.
Qed.

(** The values above, as mantissa and exponent. *)
Example float_236000 : float_of_Z 236000 = S754_finite false 8108898254848000 (-35).
Proof. reflexivity. Qed.

Example float_1200000 : float_of_Z 1200000 = S754_finite false 5153960755200000 (-32).
Proof. reflexivity. Qed.

Example float_minus_5000 : float_of_Z (-5000) = S754_finite true 5497558138880000 (-40).
Proof. reflexivity. Qed.

Example float_3_1 : float_of_decimal false 31 (-1) = S754_finite false 6980579422424269 (-51).
Proof. reflexivity. Qed.

(** Thousands separators go, and an absent input gives nothing. *)
Example parse_number_thousands :
  parse_number (Some "2,950K") = Return (Some (float_of_Z 2950000))
  /\ parse_number None = Return None.
Proof. split; vm_compute; reflexivity. Qed.

(** ** Time normalisation *)

Section ConvertTime.

Variable env : PyEnv.

(** [convert_time] never raises. *)
Lemma convert_time_returns (dt_str : string) (tz_from : option string) (tz_to : string) :
  exists r, convert_time env dt_str tz_from tz_to = Return r.
Proof.
  unfold convert_time, try_except.
  match goal with |- context [match ?b with Return _ => _ | Raise _ => _ end] =>
    destruct b end; eauto.
Qed.

(** A string that the parser rejects gives the pair of absent values. *)
Lemma convert_time_parse_failure (dt_str : string) (tz_from : option string) (tz_to : string) (e : exn) :
  dateparser_parse env dt_str = Raise e ->
  convert_time env dt_str tz_from tz_to = Return (None, None).
Proof.
  intros H. unfold convert_time. rewrite H. reflexivity.
Qed.

(** When the parser and both conversions succeed, the two renderings. *)
Lemma convert_time_success (dt_str : string) (tz_from : option string) (tz_to : string)
      (dt utc_time local_time : datetime) :
  dateparser_parse env dt_str = Return dt ->
  astimezone env (replace_tzinfo dt (source_zone env tz_from)) (Some tz_UTC) = Return utc_time ->
  astimezone env (replace_tzinfo dt (source_zone env tz_from)) (tz_gettz env tz_to) = Return local_time ->
  convert_time env dt_str tz_from tz_to
  = Return (Some (isoformat utc_time), Some (strftime_minutes local_time)).
Proof.
  intros Hp Hu Hl. unfold convert_time, source_zone in *. rewrite Hp. simpl.
  destruct (truthy tz_from); rewrite Hu; simpl; rewrite Hl; reflexivity.
Qed.

(** Conversion of an aware value whose UTC reading and whose reading in the
    target zone are both in range. *)
Lemma astimezone_aware (dt : datetime) (zone target : tzinfo) (w : Z) (f : bool) :
  dt_tzinfo dt = Some zone ->
  wall_in_range (wall dt - utcoffset zone (wall dt) (fold dt)) = true ->
  fromutc target (wall dt - utcoffset zone (wall dt) (fold dt)) = (w, f) ->
  wall_in_range w = true ->
  astimezone env dt (Some target) = Return {| wall := w; fold := f; dt_tzinfo := Some target |}.
Proof.
  intros Hz Hu Hf Hw. unfold astimezone. rewrite Hz. simpl. rewrite Hu, Hf, Hw. reflexivity.
Qed.

End ConvertTime.

(** The rendering to the minute does not see what is below the minute. *)
Lemma strftime_minutes_truncates (dt : datetime) :
  strftime_minutes dt
  = strftime_minutes {| wall := wall dt / US_PER_MINUTE * US_PER_MINUTE; fold := fold dt;
                        dt_tzinfo := dt_tzinfo dt |}.
Proof.
  unfold strftime_minutes, render_date, render_hm. simpl.
  set (w := wall dt).
  assert (w / US_PER_MINUTE * US_PER_MINUTE / US_PER_DAY = w / US_PER_DAY) as ->.
  { unfold US_PER_DAY, US_PER_HOUR, US_PER_MINUTE, US_PER_SECOND. Z.div_mod_to_equations. lia. }
  assert ((w / US_PER_MINUTE * US_PER_MINUTE) mod US_PER_DAY / US_PER_HOUR
          = w mod US_PER_DAY / US_PER_HOUR) as ->.
  { unfold US_PER_DAY, US_PER_HOUR, US_PER_MINUTE, US_PER_SECOND. Z.div_mod_to_equations. lia. }
  assert ((w / US_PER_MINUTE * US_PER_MINUTE) mod US_PER_DAY mod US_PER_HOUR / US_PER_MINUTE
          = w mod US_PER_DAY mod US_PER_HOUR / US_PER_MINUTE) as ->.
  { unfold US_PER_DAY, US_PER_HOUR, US_PER_MINUTE, US_PER_SECOND. Z.div_mod_to_equations. lia. }
  reflexivity.
Qed.

(** C9.  Take a wall-clock reading written in [dt_str], a known source zone,
    and let the reading exist in that zone (the zone maps its UTC reading
    back to it).  Then [convert_time] from the zone to itself returns the UTC
    reading, rendered in ISO 8601 with the offset [+00:00], and the original
    wall-clock reading rendered to the minute: the round trip through UTC
    gives the time of day back, up to what lies below the minute. *)
Theorem convert_time_round_trip (env : PyEnv) (dt_str zone_name : string) (zone : tzinfo)
        (dt : datetime) (f : bool) :
  let utc := wall dt - utcoffset zone (wall dt) (fold dt) in
  dateparser_parse env dt_str = Return dt ->
  str_truthy zone_name = true ->
  tz_gettz env zone_name = Some zone ->
  wall_in_range (wall dt) = true ->
  wall_in_range utc = true ->
  fromutc zone utc = (wall dt, f) ->
  convert_time env dt_str (Some zone_name) zone_name
  = Return (Some (isoformat {| wall := utc; fold := false; dt_tzinfo := Some tz_UTC |}),
            Some (strftime_minutes dt))
  /\ strftime_minutes dt
     = strftime_minutes {| wall := wall dt / US_PER_MINUTE * US_PER_MINUTE; fold := fold dt;
                           dt_tzinfo := dt_tzinfo dt |}.
Proof.
  intros utc Hp HZ Hz Hw Hu Hback. split; [|apply strftime_minutes_truncates].
  rewrite (convert_time_success env dt_str (Some zone_name) zone_name dt
             {| wall := utc; fold := false; dt_tzinfo := Some tz_UTC |}
             {| wall := wall dt; fold := f; dt_tzinfo := Some zone |}).
  - reflexivity.
  - exact Hp.
  - unfold source_zone. simpl. rewrite HZ, Hz.
    apply astimezone_aware with (zone := zone); [reflexivity | exact Hu | reflexivity | exact Hu].
  - unfold source_zone. simpl. rewrite HZ, Hz.
    apply astimezone_aware with (zone := zone); [reflexivity | exact Hu | exact Hback | exact Hw].
Qed.

Lemma convert_time_round_trip_witness :
  convert_time Fixture.env "2024-07-05 08:30:59" (Some "America/New_York") "America/New_York"
  = Return (Some "2024-07-05T12:30:59+00:00", Some "2024-07-05 08:30").
Proof.
  pose proof (convert_time_round_trip Fixture.env "2024-07-05 08:30:59" "America/New_York"
                Fixture.new_york
                {| wall := Fixture.reading 2024 7 5 8 30 59; fold := false; dt_tzinfo := None |}
                false) as H.
  simpl in H. destruct H as [H _]; [reflexivity .. |]. exact H.
Defined.

(** ** A time zone name that is not known *)

(** C2, on the code: a source zone or a target zone that [tz.gettz] does not
    know makes no exception and no absent pair.  The time is read, or
    rendered, in the local zone of the platform (UTC here). *)
Theorem convert_time_unknown_zone_not_absent :
  convert_time Fixture.env "2024-07-05 08:30" (Some "Mars/Olympus_Mons") "UTC"
  = Return (Some "2024-07-05T08:30:00+00:00", Some "2024-07-05 08:30")
  /\ convert_time Fixture.env "2024-07-05 08:30" (Some "America/New_York") "Mars/Olympus_Mons"
     = Return (Some "2024-07-05T12:30:00+00:00", Some "2024-07-05 12:30")
  /\ Fixture.gettz "Mars/Olympus_Mons" = None.
Proof.
  repeat split; vm_compute; reflexivity.
Qed.

(** The same on any platform: with an unknown source zone, the value stays
    naive and both conversions go through the local zone. *)
Lemma convert_time_unknown_source_zone (env : PyEnv) (dt_str tz_from tz_to : string)
      (dt utc_time local_time : datetime) :
  str_truthy tz_from = true ->
  tz_gettz env tz_from = None ->
  dateparser_parse env dt_str = Return dt ->
  astimezone env (replace_tzinfo dt None) (Some tz_UTC) = Return utc_time ->
  astimezone env (replace_tzinfo dt None) (tz_gettz env tz_to) = Return local_time ->
  convert_time env dt_str (Some tz_from) tz_to
  = Return (Some (isoformat utc_time), Some (strftime_minutes local_time)).
Proof.
  intros Ht Hz Hp Hu Hl.
  apply convert_time_success with (dt := dt); unfold source_zone; simpl;
    try rewrite Ht, Hz; assumption.
Qed.

(** ** Event assembly *)

Lemma importance_map_canonical (imp : string) :
  canonical (dict_get IMPORTANCE_MAP imp "medium").
Proof.
  unfold canonical, dict_get, IMPORTANCE_MAP.
  destruct (decide (imp = "low")) as [->|H1]; [left; reflexivity|].
  destruct (decide (imp = "medium")) as [->|H2]; [right; left; reflexivity|].
  destruct (decide (imp = "high")) as [->|H3]; [right; right; reflexivity|].
  right; left.
  rewrite !lookup_insert_ne, lookup_singleton_ne by congruence. reflexivity.
Qed.

(** What an appended ForexFactory event is made of. *)
Lemma ff_row_appended (env : PyEnv) (countries importance : list string) (row : ff_row) (e : Event.t) :
  ff_row_result env countries importance row = Appended e ->
  title_cell row = Some (Event.title e)
  /\ Event.importance e = dict_get IMPORTANCE_MAP (ff_imp row) "medium"
  /\ country_passes countries (default "" (country_cell row)) = true
  /\ (list_truthy importance && negb (str_in (ff_imp row) importance)) = false.
Proof.
  unfold ff_row_result, ff_row_body, country_passes, ff_imp.
  destruct (title_cell row) as [title|]; [|discriminate].
  destruct (list_truthy countries && _); [discriminate|].
  destruct (list_truthy importance && _); [discriminate|].
  destruct (get_text _) as [dt_str|]; [|discriminate]. simpl.
  destruct (convert_time _ _ _ _) as [[utc_time local_time]|]; [|discriminate]. simpl.
  destruct (parse_cell (actual_cell row)); [|discriminate]. simpl.
  destruct (parse_cell (forecast_cell row)); [|discriminate]. simpl.
  destruct (parse_cell (previous_cell row)); [|discriminate]. simpl.
  intros [= <-]. simpl. auto.
Qed.

Lemma investing_row_appended (env : PyEnv) (countries importance : list string)
      (row : investing_row) (e : Event.t) :
  investing_row_result env countries importance row = Appended e ->
  Event.title e = default "" (data_event_title row)
  /\ Event.importance e = dict_get IMPORTANCE_MAP (investing_imp row) "medium"
  /\ country_passes countries (default "" (data_country row)) = true
  /\ (list_truthy importance && negb (str_in (investing_imp row) importance)) = false.
Proof.
  unfold investing_row_result, investing_row_body, country_passes, investing_imp.
  destruct (convert_time _ _ _ _) as [[utc_time local_time]|]; [|discriminate]. simpl.
  destruct (list_truthy countries && _); [discriminate|].
  destruct (list_truthy importance && _); [discriminate|].
  intros [= <-]. simpl. auto.
Qed.

Lemma parse_cell_returns (cell : option string) : exists r, parse_cell cell = Return r.
Proof.
  destruct cell; simpl; [apply parse_number_returns | eauto].
Qed.

(** A ForexFactory row with a title cell and a time cell that passes both
    filters gives an event. *)
Lemma ff_row_passes (env : PyEnv) (countries importance : list string) (row : ff_row)
      (title dt_str : string) :
  title_cell row = Some title ->
  time_cell row = Some dt_str ->
  country_passes countries (default "" (country_cell row)) = true ->
  (list_truthy importance && negb (str_in (ff_imp row) importance)) = false ->
  exists e, ff_row_result env countries importance row = Appended e.
Proof.
  unfold ff_row_result, ff_row_body, country_passes, ff_imp.
  intros -> -> Hc Hi. apply negb_true_iff in Hc. rewrite Hc, Hi. simpl.
  destruct (convert_time_returns env dt_str (Some "America/New_York") "UTC") as [[u l] ->]. simpl.
  destruct (parse_cell_returns (actual_cell row)) as [a ->]. simpl.
  destruct (parse_cell_returns (forecast_cell row)) as [b ->]. simpl.
  destruct (parse_cell_returns (previous_cell row)) as [c ->]. simpl.
  eauto.
Qed.

Lemma investing_row_passes (env : PyEnv) (countries importance : list string) (row : investing_row) :
  country_passes countries (default "" (data_country row)) = true ->
  (list_truthy importance && negb (str_in (investing_imp row) importance)) = false ->
  exists e, investing_row_result env countries importance row = Appended e.
Proof.
  unfold investing_row_result, investing_row_body, country_passes, investing_imp.
  intros Hc Hi. apply negb_true_iff in Hc.
  destruct (convert_time_returns env (default "" (data_event_datetime row)) (Some "UTC") "UTC")
    as [[u l] ->]. simpl.
  rewrite Hc, Hi. simpl. eauto.
Qed.

Lemma ff_events_canonical (env : PyEnv) (countries importance : list string) (rows : list ff_row) :
  Forall (fun e => canonical (Event.importance e)) (ff_events env countries importance rows).
Proof.
  apply Forall_forall. intros e He.
  apply list_elem_of_omap in He as (row & _ & Hrow).
  destruct (ff_row_result env countries importance row) as [e'| |] eqn:E; try discriminate.
  injection Hrow as ->. apply ff_row_appended in E as (_ & -> & _).
  apply importance_map_canonical.
Qed.

Lemma investing_events_canonical (env : PyEnv) (countries importance : list string)
      (rows : list investing_row) :
  Forall (fun e => canonical (Event.importance e)) (investing_events env countries importance rows).
Proof.
  apply Forall_forall. intros e He.
  apply list_elem_of_omap in He as (row & _ & Hrow).
  destruct (investing_row_result env countries importance row) as [e'| |] eqn:E; try discriminate.
  injection Hrow as ->. apply investing_row_appended in E as (_ & -> & _).
  apply importance_map_canonical.
Qed.

(** C7.  Every event either provider returns has one of the three levels as
    its importance, whatever the label of the row; and the label
    ["critical"], which the table does not know, becomes ["medium"]. *)
Theorem importance_always_canonical (env : PyEnv) (status_code : Z)
        (countries importance : list string) :
  (forall rows, Forall (fun e => canonical (Event.importance e))
                       (ForexFactoryProvider_fetch env status_code rows countries importance))
  /\ (forall rows, Forall (fun e => canonical (Event.importance e))
                          (InvestingProvider_fetch env status_code rows countries importance))
  /\ dict_get IMPORTANCE_MAP (str_lower "critical") "medium" = "medium".
Proof.
  unfold ForexFactoryProvider_fetch, InvestingProvider_fetch.
  split; [|split; [|reflexivity]]; intros rows; destruct (negb _);
    auto using ff_events_canonical, investing_events_canonical, List.Forall_nil.
Qed.

(** A row labelled ["critical"], kept by an allow-list that names that
    label, is stored as ["medium"]. *)
Example critical_row_is_medium :
  Event.importance <$> ForexFactoryProvider_fetch Fixture.env 200
    [mk_ff_row (Some "2024-01-05 08:30") (Some "CPI") (Some "US") (Some "Critical") None None None]
    [] ["critical"]
  = ["medium"].
Proof. vm_compute. reflexivity. Qed.

(** A ForexFactory row is skipped by the importance filter exactly when its
    lowercased label is not in the allow-list. *)
Lemma ff_row_skipped_iff (env : PyEnv) (countries importance : list string) (row : ff_row)
      (title : string) :
  list_truthy importance = true ->
  title_cell row = Some title ->
  country_passes countries (default "" (country_cell row)) = true ->
  ff_row_result env countries importance row = Skipped <-> str_in (ff_imp row) importance = false.
Proof.
  intros Hl Ht Hc.
  destruct (str_in (ff_imp row) importance) eqn:Hin.
  - split; [|discriminate]. intros Hs.
    unfold ff_row_result, ff_row_body, country_passes in *. fold (ff_imp row) in Hs.
    rewrite Ht in Hs. apply negb_true_iff in Hc. rewrite Hc, Hin, Hl in Hs. simpl in Hs.
    destruct (get_text _); [|discriminate]. simpl in Hs.
    destruct (convert_time_returns env a (Some "America/New_York") "UTC") as [[u l] E].
    rewrite E in Hs. simpl in Hs.
    destruct (parse_cell_returns (actual_cell row)) as [x Ex]. rewrite Ex in Hs. simpl in Hs.
    destruct (parse_cell_returns (forecast_cell row)) as [y Ey]. rewrite Ey in Hs. simpl in Hs.
    destruct (parse_cell_returns (previous_cell row)) as [z Ez]. rewrite Ez in Hs. simpl in Hs.
    discriminate.
  - split; [reflexivity|]. intros _.
    unfold ff_row_result, ff_row_body, country_passes in *. fold (ff_imp row).
    rewrite Ht. apply negb_true_iff in Hc. rewrite Hc, Hin, Hl. reflexivity.
Qed.

Lemma investing_row_skipped_iff (env : PyEnv) (countries importance : list string)
      (row : investing_row) :
  list_truthy importance = true ->
  country_passes countries (default "" (data_country row)) = true ->
  investing_row_result env countries importance row = Skipped
  <-> str_in (investing_imp row) importance = false.
Proof.
  intros Hl Hc.
  unfold investing_row_result, investing_row_body, country_passes in *.
  fold (investing_imp row).
  destruct (convert_time_returns env (default "" (data_event_datetime row)) (Some "UTC") "UTC")
    as [[u l] ->]. simpl.
  apply negb_true_iff in Hc. rewrite Hc, Hl.
  destruct (str_in (investing_imp row) importance); simpl; split; congruence.
Qed.

(** C3 (as amended).  With a non-empty allow-list, a row that has a title
    and passes the country filter is skipped exactly when its lowercased
    label (["medium"] for a row without label) is not in the allow-list, and
    gives an event exactly when it is (for ForexFactory, when the row has a
    time cell).  The lookup table plays no part in the filter. *)
Theorem importance_filter_uses_lowercased_label (env : PyEnv) (countries importance : list string)
        (frow : ff_row) (title dt_str : string) (irow : investing_row) :
  list_truthy importance = true ->
  title_cell frow = Some title ->
  time_cell frow = Some dt_str ->
  country_passes countries (default "" (country_cell frow)) = true ->
  country_passes countries (default "" (data_country irow)) = true ->
  (ff_row_result env countries importance frow = Skipped
   <-> str_in (ff_imp frow) importance = false)
  /\ ((exists e, ff_row_result env countries importance frow = Appended e)
      <-> str_in (ff_imp frow) importance = true)
  /\ (investing_row_result env countries importance irow = Skipped
      <-> str_in (investing_imp irow) importance = false)
  /\ ((exists e, investing_row_result env countries importance irow = Appended e)
      <-> str_in (investing_imp irow) importance = true).
Proof.
  intros Hl Ht Htime Hcf Hci.
  pose proof (ff_row_skipped_iff env countries importance frow title Hl Ht Hcf) as Hf.
  pose proof (investing_row_skipped_iff env countries importance irow Hl Hci) as Hi.
  repeat split; try apply Hf; try apply Hi.
  - intros [e He]. apply ff_row_appended in He as (_ & _ & _ & H).
    rewrite Hl in H. simpl in H. now apply negb_false_iff in H.
  - intros Hin. apply ff_row_passes with (title := title) (dt_str := dt_str); auto.
    rewrite Hin. apply andb_false_r.
  - intros [e He]. apply investing_row_appended in He as (_ & _ & _ & H).
    rewrite Hl in H. simpl in H. now apply negb_false_iff in H.
  - intros Hin. apply investing_row_passes; auto.
    rewrite Hin. apply andb_false_r.
Qed.

Lemma importance_filter_uses_lowercased_label_witness :
  let frow := mk_ff_row (Some "2024-01-05 08:30") (Some "CPI") (Some "US") (Some "High") None None None in
  let irow := mk_investing_row (Some "GDP") (Some "DE") (Some "holiday") (Some "2024-01-05 13:30") in
  (ff_row_result Fixture.env ["US"; "DE"] ["high"] frow = Skipped
   <-> str_in (ff_imp frow) ["high"] = false)
  /\ ((exists e, ff_row_result Fixture.env ["US"; "DE"] ["high"] frow = Appended e)
      <-> str_in (ff_imp frow) ["high"] = true)
  /\ (investing_row_result Fixture.env ["US"; "DE"] ["high"] irow = Skipped
      <-> str_in (investing_imp irow) ["high"] = false)
  /\ ((exists e, investing_row_result Fixture.env ["US"; "DE"] ["high"] irow = Appended e)
      <-> str_in (investing_imp irow) ["high"] = true).
Proof.
  intros frow irow.
  apply (importance_filter_uses_lowercased_label Fixture.env ["US"; "DE"] ["high"] frow
           "CPI" "2024-01-05 08:30" irow); reflexivity.
Defined.

(** C3 (as stated) fails both ways.  The unknown label ["critical"] has the
    canonical importance ["medium"]: with the allow-list [["medium"]] the row
    is skipped although its canonical importance is allowed, and with the
    allow-list [["critical"]] it gives an event, of importance ["medium"],
    although its canonical importance is not allowed. *)
Lemma importance_filter_not_on_canonical_level :
  let row := mk_ff_row (Some "2024-01-05 08:30") (Some "CPI") (Some "US") (Some "critical")
                       None None None in
  let level := dict_get IMPORTANCE_MAP (ff_imp row) "medium" in
  level = "medium"
  /\ str_in level ["medium"] = true
  /\ ff_row_result Fixture.env [] ["medium"] row = Skipped
  /\ str_in level ["critical"] = false
  /\ (exists e, ff_row_result Fixture.env [] ["critical"] row = Appended e
                /\ Event.importance e = "medium").
Proof.
  repeat split; try (vm_compute; reflexivity).
  eexists. split; vm_compute; reflexivity.
Qed.

(** The same happens at Investing.com. *)
Example investing_filter_not_on_canonical_level :
  investing_row_result Fixture.env [] ["medium"]
    (mk_investing_row (Some "CPI") (Some "US") (Some "critical") (Some "2024-01-05 13:30"))
  = Skipped.
Proof. vm_compute. reflexivity. Qed.

(** C4 (as amended).  A ForexFactory row without title cell is skipped: the
    loop moves on to the next row, no exception is raised and no event is
    appended for it. *)
Theorem ff_row_without_title_cell_skipped (env : PyEnv) (countries importance : list string)
        (row : ff_row) :
  title_cell row = None ->
  ff_row_result env countries importance row = Skipped
  /\ forall status_code, ForexFactoryProvider_fetch env status_code [row] countries importance = [].
Proof.
  intros H.
  assert (ff_row_result env countries importance row = Skipped) as Hs.
  { unfold ff_row_result, ff_row_body. now rewrite H. }
  split; [exact Hs|]. intros status_code.
  unfold ForexFactoryProvider_fetch, ff_events. simpl. rewrite Hs.
  now destruct (negb _).
Qed.

Lemma ff_row_without_title_cell_skipped_witness :
  let row := mk_ff_row (Some "2024-01-05 08:30") None (Some "US") (Some "high") None None None in
  ff_row_result Fixture.env [] [] row = Skipped
  /\ forall status_code, ForexFactoryProvider_fetch Fixture.env status_code [row] [] [] = [].
Proof.
  intros row. apply (ff_row_without_title_cell_skipped Fixture.env [] [] row). reflexivity.
Defined.

(** C4 (as stated) fails.  A row whose title is the empty string gives an
    event with an empty title, at either provider: ForexFactory tests
    whether the title cell is there, not what it holds, and Investing.com
    makes no test on the title. *)
Lemma empty_title_not_rejected :
  (exists e, ff_row_result Fixture.env [] []
               (mk_ff_row (Some "2024-01-05 08:30") (Some "") (Some "US") (Some "high")
                          None None None)
             = Appended e /\ Event.title e = "")
  /\ (exists e, investing_row_result Fixture.env [] []
                  (mk_investing_row (Some "") (Some "US") (Some "high") (Some "2024-01-05 13:30"))
                = Appended e /\ Event.title e = "").
Proof.
  split; eexists; split; vm_compute; reflexivity.
Qed.

(** An Investing.com row without title attribute is read as a row with an
    empty title, and is not skipped either. *)
Example investing_row_without_title :
  exists e, investing_row_result Fixture.env [] []
              (mk_investing_row None (Some "US") (Some "high") (Some "2024-01-05 13:30"))
            = Appended e /\ Event.title e = "".
Proof. eexists; split; vm_compute; reflexivity. Qed.

(** No row of Investing.com is skipped for its title. *)
Lemma investing_row_title_plays_no_part (env : PyEnv) (countries importance : list string)
      (row : investing_row) (t : option string) :
  investing_row_result env countries importance row = Skipped ->
  investing_row_result env countries importance
    (mk_investing_row t (data_country row) (data_event_importance row) (data_event_datetime row))
  = Skipped.
Proof.
  unfold investing_row_result, investing_row_body. simpl.
  destruct (convert_time _ _ _ _) as [[u l]|]; simpl; [|discriminate].
  destruct (list_truthy countries && _); [reflexivity|].
  destruct (list_truthy importance && _); [reflexivity|discriminate].
Qed.

(** ** Notification *)

(** [int()] raises nothing but [ValueError]. *)
Lemma py_int_raises_ValueError (s : string) (e : exn) :
  py_int s = Raise e -> e = ValueError.
Proof.
  unfold py_int.
  destruct (read_sign _) as [neg body].
  destruct (read_int_digits _ _ _ _) as [[[v n] rest]|]; [|congruence].
  destruct (str_truthy _); [congruence|].
  destruct (_ <? _); congruence.
Qed.

(** A magnitude that [int()] rejects ends the call before any event is
    looked at. *)
Lemma notify_upcoming_bad_magnitude (env : PyEnv) (clock : Z) (events : list Event.t)
      (window tz_name : string) (now : datetime) (e : exn) :
  datetime_now env clock (tz_gettz env tz_name) = Return now ->
  py_int (str_init window) = Raise e ->
  notify_upcoming env clock events window tz_name = ([], Raise ValueError).
Proof.
  intros Hnow Hint. unfold notify_upcoming, window_delta. rewrite Hnow, Hint. simpl.
  now rewrite (py_int_raises_ValueError _ _ Hint).
Qed.

(** C10.  Once the clock has been read, a window whose leading part is not
    an integer makes [notify_upcoming] raise [ValueError] before any line is
    printed; so do ["day"] and the empty string.  The window of 24 hours is
    what a window gets whose leading part is an integer and whose last
    character is neither [h] nor [m]. *)
Theorem notify_upcoming_fallback_needs_integer (env : PyEnv) (clock : Z) (events : list Event.t)
        (tz_name : string) (now : datetime) :
  datetime_now env clock (tz_gettz env tz_name) = Return now ->
  notify_upcoming env clock events "day" tz_name = ([], Raise ValueError)
  /\ notify_upcoming env clock events "" tz_name = ([], Raise ValueError)
  /\ (forall window e,
        py_int (str_init window) = Raise e ->
        notify_upcoming env clock events window tz_name = ([], Raise ValueError))
  /\ (forall window num unit,
        py_int (str_init window) = Return num ->
        str_last window = Return unit ->
        unit <> "h"%char -> unit <> "m"%char ->
        window_delta window = Return (24 * US_PER_HOUR)).
Proof.
  intros Hnow. split; [|split; [|split]].
  - apply notify_upcoming_bad_magnitude with (now := now) (e := ValueError); [exact Hnow | reflexivity].
  - apply notify_upcoming_bad_magnitude with (now := now) (e := ValueError); [exact Hnow | reflexivity].
  - intros window e. apply notify_upcoming_bad_magnitude with (now := now). exact Hnow.
  - intros window num unit Hint Hlast Hh Hm. unfold window_delta. rewrite Hint, Hlast. simpl.
    apply Ascii.eqb_neq in Hh, Hm. rewrite Hh, Hm. reflexivity.
Qed.

Lemma notify_upcoming_fallback_needs_integer_witness :
  let clock := Fixture.reading 2024 1 5 12 0 0 in
  notify_upcoming Fixture.env clock [] "day" "UTC" = ([], Raise ValueError)
  /\ notify_upcoming Fixture.env clock [] "" "UTC" = ([], Raise ValueError)
  /\ notify_upcoming Fixture.env clock [] "1.5h" "UTC" = ([], Raise ValueError)
  /\ window_delta "7d" = Return (24 * US_PER_HOUR).
Proof.
  intros clock.
  destruct (notify_upcoming_fallback_needs_integer Fixture.env clock [] "UTC"
              {| wall := clock; fold := false; dt_tzinfo := Some tz_UTC |} eq_refl)
    as (Hday & Hempty & Hbad & Hfallback).
  split; [|split; [|split]].
  - exact Hday.
  - exact Hempty.
  - apply (Hbad "1.5h" ValueError). reflexivity.
  - apply (Hfallback "7d" 7 "d"%char); [reflexivity | reflexivity | discriminate | discriminate].
Defined.

Section Window.

Variable env : PyEnv.
Variables (clock delta : Z) (now until : datetime).

Hypothesis now_is_clock :
  astimezone env now (Some tz_UTC)
  = Return {| wall := clock; fold := false; dt_tzinfo := Some tz_UTC |}.
Hypothesis until_is_end :
  astimezone env until (Some tz_UTC)
  = Return {| wall := clock + delta; fold := false; dt_tzinfo := Some tz_UTC |}.

(** The test on one event whose [time_utc], when it is there, parses to an
    aware value. *)
Lemma notify_test_in_window (e : Event.t) :
  (truthy (Event.time_utc e) = true -> event_instant env e <> None) ->
  notify_test env now until e = Return (in_window env clock (clock + delta) e).
Proof.
  unfold notify_test, in_window, event_instant. intros Hparse.
  destruct (truthy (Event.time_utc e)); [|reflexivity].
  specialize (Hparse eq_refl). simpl.
  destruct (dateparser_parse env _) as [dt|]; [|congruence]. simpl.
  rewrite now_is_clock. simpl.
  destruct (dt_tzinfo dt) as [z|] eqn:Hz; [|congruence].
  unfold dt_le. simpl. rewrite Hz. simpl. rewrite until_is_end. simpl.
  rewrite !Z.sub_0_r. destruct (clock <=? _); reflexivity.
Qed.

(** The loop prints, after what it has printed already, the events of the
    window in their order. *)
Lemma notify_loop_filter (events printed : list Event.t) :
  Forall (fun e => truthy (Event.time_utc e) = true -> event_instant env e <> None) events ->
  notify_loop env now until events printed
  = (printed ++ List.filter (in_window env clock (clock + delta)) events, Return tt).
Proof.
  intros H. revert printed.
  induction H as [|e events He _ IH]; intros printed; simpl.
  - now rewrite app_nil_r.
  - rewrite (notify_test_in_window e He).
    destruct (in_window env clock (clock + delta) e).
    + rewrite IH, <- app_assoc. reflexivity.
    + apply IH.
Qed.

End Window.

(** C6 (as amended).  Let the window be an integer [num] followed by a
    character [unit]: [num] hours for [h], [num] minutes for [m], 24 hours
    otherwise.  Let that duration, and the readings of now and of the end of
    the window, be in range, and let the display zone have at the wall-clock
    end of the window the offset it has now.  Then [notify_upcoming] prints,
    in the order of the input, exactly the events whose [time_utc] is there
    and denotes an instant of the closed interval from now to now plus the
    window; events without [time_utc] are left out; and the call returns. *)
Theorem notify_upcoming_selects_window (env : PyEnv) (clock : Z) (events : list Event.t)
        (window tz_name : string) (num : Z) (unit : ascii) (w : Z) (f : bool) :
  let zone := default (local_zone env) (tz_gettz env tz_name) in
  let delta := if Ascii.eqb unit "h" then num * US_PER_HOUR
               else if Ascii.eqb unit "m" then num * US_PER_MINUTE
               else 24 * US_PER_HOUR in
  py_int (str_init window) = Return num ->
  str_last window = Return unit ->
  timedelta delta = Return delta ->
  fromutc zone clock = (w, f) ->
  utcoffset zone w f = w - clock ->
  utcoffset zone (w + delta) false = w - clock ->
  wall_in_range w = true ->
  wall_in_range (w + delta) = true ->
  wall_in_range clock = true ->
  wall_in_range (clock + delta) = true ->
  Forall (fun e => truthy (Event.time_utc e) = true -> event_instant env e <> None) events ->
  notify_upcoming env clock events window tz_name
  = (List.filter (in_window env clock (clock + delta)) events, Return tt).
Proof.
  intros zone delta Hint Hlast Hdelta Hnow Hoff Hoff' Hw Hw' Hc Hc' Hev.
  unfold notify_upcoming, datetime_now. fold zone. rewrite Hnow, Hw. simpl.
  assert (window_delta window = Return delta) as ->.
  { unfold window_delta. rewrite Hint, Hlast. simpl. subst delta.
    destruct (Ascii.eqb unit "h"); [exact Hdelta|].
    destruct (Ascii.eqb unit "m"); [exact Hdelta|reflexivity]. }
  simpl. unfold dt_add. simpl. rewrite Hw'. simpl.
  apply (notify_loop_filter env clock delta); [| |exact Hev].
  - unfold astimezone. simpl. fold zone. rewrite Hoff.
    replace (w - (w - clock)) with clock by lia. rewrite Hc. reflexivity.
  - unfold astimezone. simpl. fold zone. rewrite Hoff'.
    replace (w + delta - (w - clock)) with (clock + delta) by lia. rewrite Hc'. reflexivity.
Qed.

Lemma notify_upcoming_selects_window_witness :
  let clock := Fixture.reading 2024 1 5 12 0 0 in
  let absent := sample_event "no time" None in
  let before := sample_event "before" (Some "2024-01-05T11:59:00+00:00") in
  let at_start := sample_event "at now" (Some "2024-01-05T12:00:00+00:00") in
  let inside := sample_event "23h59" (Some "2024-01-06T11:59:00+00:00") in
  let last := sample_event "at the end" (Some "2024-01-06T12:00:00+00:00") in
  let late := sample_event "24h01" (Some "2024-01-06T12:01:00+00:00") in
  notify_upcoming Fixture.env clock [late; absent; inside; before; last; at_start] "24h"
                  "America/New_York"
  = ([inside; last; at_start], Return tt).
Proof.
  intros clock absent before at_start inside last late.
  pose proof (notify_upcoming_selects_window Fixture.env clock
                [late; absent; inside; before; last; at_start] "24h" "America/New_York"
                24 "h" (clock - 5 * US_PER_HOUR) false) as H.
  cbv zeta in H.
  repeat lazymatch type of H with
         | Forall _ _ -> _ => fail
         | ?A -> _ =>
           let Ha := fresh in
           assert (Ha : A) by (vm_compute; reflexivity); specialize (H Ha); clear Ha
         end.
  etransitivity; [apply H | vm_compute; reflexivity].
  repeat (apply List.Forall_cons;
          [intros Ht; vm_compute in Ht;
           first [ discriminate Ht | clear Ht; vm_compute; intros Hn; discriminate Hn ] |]).
  apply List.Forall_nil.
Defined.

(** C6 (as stated) fails.  On 30 March 2024 at 11:00 UTC, with the display
    zone Europe/Madrid and the window ["24h"], an event 23 hours and 59
    minutes ahead is not printed: the end of the window is taken on the wall
    clock of Madrid, which moves forward by one hour that night, so the
    window lasts 23 hours.  And a magnitude beyond what a [timedelta] or a
    [datetime] holds makes the call raise [OverflowError]. *)
Lemma notify_upcoming_window_not_exact :
  let clock := Fixture.reading 2024 3 30 11 0 0 in
  let e := sample_event "CPI" (Some "2024-03-31T10:59:00+00:00") in
  event_instant Fixture.env e = Some (clock + 23 * US_PER_HOUR + 59 * US_PER_MINUTE)
  /\ in_window Fixture.env clock (clock + 24 * US_PER_HOUR) e = true
  /\ notify_upcoming Fixture.env clock [e] "24h" "Europe/Madrid" = ([], Return tt)
  /\ notify_upcoming Fixture.env clock [e] "24000000000h" "UTC" = ([], Raise OverflowError)
  /\ notify_upcoming Fixture.env clock [e] "80000000h" "UTC" = ([], Raise OverflowError).
Proof.
  repeat split; vm_compute; reflexivity.
Qed.

(** In a zone without change of offset the same event is printed. *)
Example notify_upcoming_same_day_utc :
  let clock := Fixture.reading 2024 3 30 11 0 0 in
  let e := sample_event "CPI" (Some "2024-03-31T10:59:00+00:00") in
  notify_upcoming Fixture.env clock [e] "24h" "UTC" = ([e], Return tt).
Proof. vm_compute. reflexivity. Qed.

(** When the clock of Madrid moves back, the window lasts 25 hours. *)
Example notify_upcoming_autumn :
  let clock := Fixture.reading 2024 10 26 11 0 0 in
  let e := sample_event "CPI" (Some "2024-10-27T11:30:00+00:00") in
  in_window Fixture.env clock (clock + 24 * US_PER_HOUR) e = false
  /\ notify_upcoming Fixture.env clock [e] "24h" "Europe/Madrid" = ([e], Return tt).
Proof. split; vm_compute; reflexivity. Qed.

(** * Further properties of the code *)

(** ** The shape of a digest *)

Lemma str_forall_app (p : ascii -> bool) (s t : string) :
  str_forall p (s +:+ t) = str_forall p s && str_forall p t.
Proof.
  induction s as [|c r IH]; simpl; [reflexivity|]. now rewrite IH, andb_assoc.
Qed.

Lemma str_length_app (s t : string) :
  String.length (s +:+ t) = (String.length s + String.length t)%nat.
Proof.
  induction s as [|c r IH]; simpl; [reflexivity|]. now rewrite IH.
Qed.

Lemma hex_digit_lower_hex (n : Z) :
  0 <= n < 16 -> is_lower_hex (Sha1.hex_digit n) = true.
Proof.
  intros H. rewrite <- (Z2Nat.id n) by lia.
  assert (Z.to_nat n < 16)%nat as Hk by lia.
  generalize dependent (Z.to_nat n). clear. intros k Hk.
  do 16 (destruct k as [|k]; [reflexivity|]). lia.
Qed.

Lemma hex_of_shape (digits : nat) (x : Z) :
  String.length (Sha1.hex_of digits x) = digits
  /\ str_forall is_lower_hex (Sha1.hex_of digits x) = true.
Proof.
  induction digits as [|d [IHl IHf]]; simpl; [split; reflexivity|].
  split; [now rewrite IHl|].
  rewrite IHf, andb_true_r. apply hex_digit_lower_hex.
  change 15 with (Z.ones 4). rewrite Z.land_ones by lia.
  apply Z.mod_pos_bound. reflexivity.
Qed.

Lemma hexdigest_shape (msg : list Z) :
  String.length (Sha1.hexdigest msg) = 40%nat
  /\ str_forall is_lower_hex (Sha1.hexdigest msg) = true.
Proof.
  unfold Sha1.hexdigest.
  set (s := Sha1.digest_state msg).
  destruct (hex_of_shape 8 (Sha1.ha s)) as [La Fa], (hex_of_shape 8 (Sha1.hb s)) as [Lb Fb],
    (hex_of_shape 8 (Sha1.hc s)) as [Lc Fc], (hex_of_shape 8 (Sha1.hd s)) as [Ld Fd],
    (hex_of_shape 8 (Sha1.he s)) as [Le Fe].
  split.
  - rewrite !str_length_app, La, Lb, Lc, Ld, Le. reflexivity.
  - rewrite !str_forall_app, Fa, Fb, Fc, Fd, Fe. reflexivity.
Qed.

(** X1.  Whatever the arguments, and however many, the identifier is a text
    of forty characters, each a digit or a letter from [a] to [f]. *)
Theorem sha1_id_forty_hex_digits (args : list (option string)) :
  String.length (sha1_id args) = 40%nat
  /\ str_forall is_lower_hex (sha1_id args) = true.
Proof.
  apply hexdigest_shape.
Qed.

(** ** Fields that do not count *)

Lemma kept_fields_app (a b : list (option string)) :
  kept_fields (a ++ b) = kept_fields a ++ kept_fields b.
Proof.
  induction a as [|[s|] a IH]; simpl; [reflexivity| |exact IH].
  destruct (str_truthy s); simpl; now rewrite IH.
Qed.

Lemma kept_fields_falsy (x : option string) (b : list (option string)) :
  truthy x = false -> kept_fields (x :: b) = kept_fields b.
Proof.
  destruct x as [s|]; simpl; [|reflexivity]. now intros ->.
Qed.

(** X2.  A field that is absent or empty leaves no trace in the identifier,
    wherever it stands among the arguments: the identifier is that of the
    arguments without it. *)
Theorem sha1_id_drops_falsy_field (a b : list (option string)) (x : option string) :
  truthy x = false ->
  sha1_id (a ++ x :: b) = sha1_id (a ++ b).
Proof.
  intros H. unfold sha1_id, sha1_text.
  now rewrite !kept_fields_app, (kept_fields_falsy x b H).
Qed.

Lemma sha1_id_drops_falsy_field_witness :
  sha1_id ([Some "investing_com"; Some "CPI"] ++ Some "" :: [Some "2024-01-05T13:30:00+00:00"])
  = sha1_id ([Some "investing_com"; Some "CPI"] ++ [Some "2024-01-05T13:30:00+00:00"]).
Proof.
  apply (sha1_id_drops_falsy_field [Some "investing_com"; Some "CPI"]
           [Some "2024-01-05T13:30:00+00:00"] (Some "")).
  reflexivity.
Defined.

(** ** What a number is written with *)

Lemma str_has_app (c : ascii) (s t : string) :
  str_has c (s +:+ t) = str_has c s || str_has c t.
Proof.
  induction s as [|d r IH]; simpl; [reflexivity|]. now rewrite IH, orb_assoc.
Qed.

Lemma str_has_of_list (c : ascii) (l : list ascii) :
  str_has c (string_of_list_ascii l) = existsb (Ascii.eqb c) l.
Proof.
  induction l as [|d l IH]; simpl; [reflexivity|]. now rewrite IH.
Qed.

Lemma existsb_reverse {A : Type} (p : A -> bool) (l : list A) :
  existsb p (rev l) = existsb p l.
Proof.
  induction l as [|x l IH]; simpl; [reflexivity|].
  rewrite existsb_app, IH. simpl. rewrite orb_false_r. apply orb_comm.
Qed.

Lemma str_has_rev (c : ascii) (s : string) : str_has c (str_rev s) = str_has c s.
Proof.
  unfold str_rev. rewrite str_has_of_list, existsb_reverse, <- str_has_of_list.
  now rewrite string_of_list_ascii_of_string.
Qed.

Lemma str_has_lstrip (c : ascii) (s : string) :
  is_space c = false -> str_has c (str_lstrip s) = str_has c s.
Proof.
  intros Hc. induction s as [|d r IH]; simpl; [reflexivity|].
  destruct (is_space d) eqn:Hd; [|reflexivity].
  rewrite IH. destruct (Ascii.eqb c d) eqn:E; [|reflexivity].
  apply Ascii.eqb_eq in E. congruence.
Qed.

Lemma str_has_strip (c : ascii) (s : string) :
  is_space c = false -> str_has c (str_strip s) = str_has c s.
Proof.
  intros Hc. unfold str_strip, str_rstrip.
  now rewrite str_has_rev, str_has_lstrip, str_has_rev, str_has_lstrip.
Qed.

Lemma str_has_remove (c d : ascii) (s : string) :
  c <> d -> str_has c (str_remove d s) = str_has c s.
Proof.
  intros Hcd. induction s as [|x r IH]; simpl; [reflexivity|].
  destruct (Ascii.eqb d x) eqn:E; simpl; rewrite IH; [|reflexivity].
  apply Ascii.eqb_eq in E. subst x.
  apply Ascii.eqb_neq in Hcd. now rewrite Hcd.
Qed.

Lemma str_has_lower (c : ascii) (s : string) :
  str_has c s = true -> str_has (chr_lower c) (str_lower s) = true.
Proof.
  induction s as [|d r IH]; simpl; [discriminate|].
  destruct (Ascii.eqb c d) eqn:E.
  - apply Ascii.eqb_eq in E. subst d. now rewrite Ascii.eqb_refl.
  - simpl. intros H. rewrite (IH H). apply orb_true_r.
Qed.

(** What [read_digits] leaves behind holds every character that is not a
    digit. *)
Lemma read_digits_rest (s : string) (acc count v n : Z) (rest : string) (c : ascii) :
  read_digits acc count s = (v, n, rest) ->
  str_has c s = true -> is_digit c = true \/ str_has c rest = true.
Proof.
  revert acc count. induction s as [|d r IH]; intros acc count H Hc; simpl in *.
  - discriminate.
  - destruct (is_digit d) eqn:Hd.
    + destruct (Ascii.eqb c d) eqn:E.
      * apply Ascii.eqb_eq in E. subst d. now left.
      * simpl in Hc. eapply IH; eauto.
    + injection H as _ _ <-. right. exact Hc.
Qed.

Lemma read_sign_cases (d : ascii) (r : string) :
  (d = "-"%char /\ read_sign (String d r) = (true, r))
  \/ (d = "+"%char /\ read_sign (String d r) = (false, r))
  \/ (d <> "-"%char /\ d <> "+"%char /\ read_sign (String d r) = (false, String d r)).
Proof.
  destruct d as [[] [] [] [] [] [] [] []];
    first [ left; split; reflexivity
          | right; left; split; reflexivity
          | right; right; repeat split; discriminate || reflexivity ].
Qed.

Lemma read_sign_rest (s body : string) (neg : bool) (c : ascii) :
  read_sign s = (neg, body) ->
  str_has c s = true -> str_has c "+-" = true \/ str_has c body = true.
Proof.
  intros H Hc. destruct s as [|d r].
  - simpl in H. injection H as _ <-. now right.
  - destruct (read_sign_cases d r) as [[-> E]|[[-> E]|(_ & _ & E)]];
      rewrite E in H; injection H as _ <-.
    + simpl in Hc. simpl. destruct (Ascii.eqb c "-"); [left; apply orb_true_r|now right].
    + simpl in Hc. simpl. destruct (Ascii.eqb c "+"); [now left|now right].
    + now right.
Qed.

Lemma float_char_digit (c : ascii) : is_digit c = true -> float_char c = true.
Proof.
  intros H. unfold float_char. rewrite H. now rewrite orb_true_r.
Qed.

Lemma float_char_sign (c : ascii) : str_has c "+-" = true -> float_char c = true.
Proof.
  intros H. unfold float_char. simpl in *.
  destruct (Ascii.eqb c "+"); [now rewrite !orb_true_r|].
  destruct (Ascii.eqb c "-"); [now rewrite !orb_true_r|]. discriminate.
Qed.

Lemma read_exponent_chars (s : string) (e : Z) (c : ascii) :
  read_exponent s = Some e -> str_has c s = true -> float_char c = true.
Proof.
  unfold read_exponent. destruct s as [|d r]; [discriminate|].
  destruct (Ascii.eqb (chr_lower d) "e") eqn:Hd; [|discriminate].
  destruct (read_sign r) as [neg r1] eqn:Hs.
  destruct (read_digits 0 0 r1) as [[v n] rest] eqn:Hr.
  destruct rest; [|discriminate]. intros _ Hc. simpl in Hc.
  destruct (Ascii.eqb c d) eqn:E.
  - apply Ascii.eqb_eq in E. subst d. apply Ascii.eqb_eq in Hd.
    unfold float_char. rewrite Hd. simpl. now rewrite !orb_true_r.
  - simpl in Hc. destruct (read_sign_rest _ _ _ c Hs Hc) as [H|H].
    + now apply float_char_sign.
    + destruct (read_digits_rest _ _ _ _ _ _ c Hr H) as [H'|H']; [|discriminate].
      now apply float_char_digit.
Qed.

Lemma read_decimal_chars (neg : bool) (s : string) (x : float) (c : ascii) :
  read_decimal neg s = Some x -> str_has c s = true -> float_char c = true.
Proof.
  unfold read_decimal.
  destruct (read_digits 0 0 s) as [[ip n_int] r1] eqn:H1.
  intros H Hc.
  destruct (read_digits_rest _ _ _ _ _ _ c H1 Hc) as [Hd|Hc1]; [now apply float_char_digit|].
  assert (forall r2 : string,
             (str_has c r1 = true -> Ascii.eqb c "." = true \/ is_digit c = true \/ str_has c r2 = true) ->
             forall e, read_exponent r2 = Some e -> float_char c = true) as Hfin.
  { intros r2 Hr2 e He. destruct (Hr2 Hc1) as [Hp|[Hp|Hp]].
    - unfold float_char. simpl. rewrite Hp. now rewrite !orb_true_r.
    - now apply float_char_digit.
    - eapply read_exponent_chars; eauto. }
  destruct r1 as [|d r].
  - discriminate.
  - destruct (Ascii.eqb d ".") eqn:Ed.
    + apply Ascii.eqb_eq in Ed. subst d.
      destruct (read_digits ip 0 r) as [[v n] r'] eqn:H2.
      destruct (0 <? n_int + n); [|discriminate].
      destruct (read_exponent r') as [e|] eqn:He; [|discriminate].
      apply (Hfin r' ) with (e := e); [|exact He].
      intros Hr. simpl in Hr. destruct (Ascii.eqb c "."); [now left|].
      simpl in Hr. destruct (read_digits_rest _ _ _ _ _ _ c H2 Hr); auto.
    + assert ((let '(m, n_frac, r2) :=
                 match String d r with
                 | String "." r0 => let '(v, n, r') := read_digits ip 0 r0 in (v, n, r')
                 | _ => (ip, 0, String d r)
                 end in
               if 0 <? n_int + n_frac
               then match read_exponent r2 with
                    | Some e => Some (float_of_decimal neg m (e - n_frac))
                    | None => None
                    end
               else None)
              = (if 0 <? n_int + 0
                 then match read_exponent (String d r) with
                      | Some e => Some (float_of_decimal neg ip (e - 0))
                      | None => None
                      end
                 else None)) as Hshape.
      { apply Ascii.eqb_neq in Ed.
        destruct d as [[] [] [] [] [] [] [] []]; try reflexivity; congruence. }
      rewrite Hshape in H.
      destruct (0 <? n_int + 0); [|discriminate].
      destruct (read_exponent (String d r)) as [e|] eqn:He; [|discriminate].
      apply (Hfin (String d r)) with (e := e); auto.
Qed.

(** A text that [float()] accepts is made of the characters of numbers. *)
Lemma py_float_chars (s : string) (x : float) (c : ascii) :
  py_float s = Return x -> str_has c s = true -> float_char c = true.
Proof.
  unfold py_float. intros H Hc.
  destruct (float_char c) eqn:Hf; [reflexivity|exfalso].
  assert (is_space c = false) as Hsp.
  { unfold float_char in Hf. now destruct (is_space c). }
  assert (c <> "_"%char) as Hus.
  { intros ->. discriminate Hf. }
  destruct (underscores_ok _ _); [|discriminate].
  destruct (read_sign _) as [neg body] eqn:Hs.
  assert (str_has c body = true) as Hb.
  { assert (str_has c (str_remove "_" (str_strip s)) = true) as Hc'.
    { now rewrite str_has_remove, str_has_strip. }
    destruct (read_sign_rest _ _ _ c Hs Hc') as [Hsg|Hb]; [|exact Hb].
    apply float_char_sign in Hsg. congruence. }
  assert (forall w : string, str_lower body = w -> str_forall float_char w = true -> False) as Hword.
  { intros w Hw Hall. apply str_has_lower in Hb. rewrite Hw in Hb.
    assert (float_char (chr_lower c) = true) as Hlc.
    { clear - Hb Hall. induction w as [|d r IH]; simpl in *; [discriminate|].
      apply andb_true_iff in Hall as [Hd Hr].
      destruct (Ascii.eqb (chr_lower c) d) eqn:E; [|auto].
      apply Ascii.eqb_eq in E. now subst d. }
    clear - Hlc Hf.
    destruct c as [[] [] [] [] [] [] [] []]; vm_compute in Hf, Hlc; congruence. }
  destruct (String.eqb (str_lower body) "inf") eqn:E1.
  { apply String.eqb_eq in E1. now apply (Hword _ E1). }
  destruct (String.eqb (str_lower body) "infinity") eqn:E2.
  { apply String.eqb_eq in E2. now apply (Hword _ E2). }
  simpl in H.
  destruct (String.eqb (str_lower body) "nan") eqn:E3.
  { apply String.eqb_eq in E3. now apply (Hword _ E3). }
  destruct (read_decimal neg body) as [y|] eqn:Hd; [|discriminate].
  pose proof (read_decimal_chars _ _ _ c Hd Hb). congruence.
Qed.

(** X3.  A text that holds a character numbers are not written with, other
    than the comma, the percent sign and the capital letters [K] and [M]
    that [parse_number] takes out itself, gives no value, wherever the
    character stands.  So the suffixes are case sensitive: a lowercase [k]
    or [m] makes the whole text unreadable. *)
Theorem parse_number_foreign_character (s : string) (c : ascii) :
  str_has c s = true ->
  float_char c = false ->
  c <> ","%char -> c <> "%"%char -> c <> "K"%char -> c <> "M"%char ->
  parse_number (Some s) = Return None.
Proof.
  intros Hc Hf Hcomma Hpct HK HM.
  assert (is_space c = false) as Hsp.
  { unfold float_char in Hf. now destruct (is_space c). }
  assert (forall u mult, str_has c u = true ->
            try_except_ValueError
              (x ← py_float u; mret (Some (float_mul x mult))) (Return None)
            = Return None) as Hfail.
  { intros u mult Hu. destruct (py_float u) as [x|e] eqn:E; simpl.
    - pose proof (py_float_chars _ _ c E Hu). congruence.
    - now rewrite (py_float_raises_ValueError _ _ E). }
  unfold parse_number.
  assert (truthy (Some s) = true) as ->.
  { destruct s; [discriminate|reflexivity]. }
  simpl.
  assert (str_has c (str_remove "," (str_strip s)) = true) as H1.
  { now rewrite str_has_remove, str_has_strip. }
  set (t := str_remove "," (str_strip s)) in *.
  assert (str_has c (if str_endswith t "%" then str_remove "%" t else t) = true) as H2.
  { destruct (str_endswith t "%"); [now rewrite str_has_remove|exact H1]. }
  set (u := if str_endswith t "%" then str_remove "%" t else t) in *.
  destruct (str_endswith u "K"); [|destruct (str_endswith u "M")];
    apply Hfail; rewrite ?str_has_remove; auto.
Qed.

Lemma parse_number_foreign_character_witness :
  parse_number (Some "236k") = Return None.
Proof.
  apply (parse_number_foreign_character "236k" "k"); (reflexivity || discriminate).
Defined.

(** ** Negative numbers *)

Lemma binary_round_aux_opp (s : bool) (m e : Z) (l : location) :
  binary_round_aux prec emax (negb s) m e l = SFopp (binary_round_aux prec emax s m e l).
Proof.
  unfold binary_round_aux.
  destruct (shr_fexp prec emax m e l) as [mrs e'].
  destruct (shr_fexp prec emax _ e' loc_Exact) as [mrs' e''].
  destruct (shr_m mrs'); try reflexivity.
  now destruct (e'' <=? emax - prec).
Qed.

Lemma float_mul_opp (x y : float) : float_mul (SFopp x) y = SFopp (float_mul x y).
Proof.
  unfold float_mul.
  destruct x as [sx|sx| |sx mx ex], y as [sy|sy| |sy my ey]; simpl; try reflexivity;
    try (now destruct sx, sy).
  rewrite <- binary_round_aux_opp. now destruct sx, sy.
Qed.

Lemma float_of_decimal_opp (m e : Z) :
  float_of_decimal true m e = SFopp (float_of_decimal false m e).
Proof.
  unfold float_of_decimal. destruct m as [|p|p]; try reflexivity.
  destruct (0 <=? e) eqn:He.
  - apply Z.leb_le in He.
    assert (0 < Z.pos p * 10 ^ e) as Hpos by (apply Z.mul_pos_pos; [lia|apply Z.pow_pos_nonneg; lia]).
    destruct (Z.pos p * 10 ^ e) as [|q|q] eqn:Eq; try lia.
    simpl. unfold binary_round.
    destruct (shl_align q 0 _) as [mz ez].
    apply (binary_round_aux_opp false).
  - unfold SFdiv.
    destruct (SFdiv_core_binary prec emax (Z.pos p) 0 _ 0) as [[mz ez] lz].
    apply (binary_round_aux_opp false).
Qed.

(** White space is taken off the two ends only. *)
Lemma str_lstrip_string_of_list_app (l : list ascii) (c : ascii) :
  is_space c = false ->
  str_lstrip (string_of_list_ascii (l ++ [c]))
  = string_of_list_ascii (list_ascii_of_string (str_lstrip (string_of_list_ascii l)) ++ [c]).
Proof.
  intros Hc. induction l as [|d l IH]; simpl.
  - now rewrite Hc.
  - destruct (is_space d); [exact IH|].
    simpl. now rewrite list_ascii_of_string_of_list_ascii.
Qed.

Lemma str_rstrip_cons (c : ascii) (s : string) :
  is_space c = false -> str_rstrip (String c s) = String c (str_rstrip s).
Proof.
  intros Hc. unfold str_rstrip, str_rev. simpl.
  rewrite str_lstrip_string_of_list_app by exact Hc.
  rewrite list_ascii_of_string_of_list_ascii, rev_app_distr. reflexivity.
Qed.

Lemma str_strip_cons (c : ascii) (s : string) :
  is_space c = false -> str_strip (String c s) = String c (str_rstrip s).
Proof.
  intros Hc. unfold str_strip. simpl. rewrite Hc. now apply str_rstrip_cons.
Qed.

Lemma str_endswith_cons (c x d : ascii) (t : string) :
  str_endswith (String c (String d t)) (String x EmptyString)
  = str_endswith (String d t) (String x EmptyString).
Proof.
  unfold str_endswith, str_rev. simpl.
  destruct (rev (list_ascii_of_string t) ++ [d]) as [|y l] eqn:E.
  - destruct (rev (list_ascii_of_string t)); discriminate.
  - simpl. destruct (ascii_dec x y); [|reflexivity].
    now destruct (string_of_list_ascii (l ++ [c])), (string_of_list_ascii l).
Qed.

Lemma starts_number_facts (d : ascii) :
  starts_number d = true ->
  is_space d = false /\ d <> ","%char /\ d <> "%"%char /\ d <> "K"%char /\ d <> "M"%char
  /\ d <> "_"%char /\ d <> "-"%char /\ d <> "+"%char.
Proof.
  destruct d as [[] [] [] [] [] [] [] []]; intros H; vm_compute in H; try discriminate H;
    repeat split; discriminate.
Qed.

Lemma str_remove_cons_ne (c d : ascii) (s : string) :
  d <> c -> str_remove c (String d s) = String d (str_remove c s).
Proof.
  intros H. simpl. destruct (Ascii.eqb c d) eqn:E; [|reflexivity].
  apply Ascii.eqb_eq in E. congruence.
Qed.

Lemma py_float_minus (d : ascii) (r : string) :
  starts_number d = true ->
  py_float (String "-" (String d r)) = opp_outcome (py_float (String d r)).
Proof.
  intros Hd. destruct (starts_number_facts d Hd) as (Hsp & _ & _ & _ & _ & Hus & Hm & Hp).
  unfold py_float.
  rewrite (str_strip_cons "-") by reflexivity.
  rewrite (str_strip_cons d) by exact Hsp.
  rewrite (str_rstrip_cons d) by exact Hsp.
  set (t := str_rstrip r).
  assert (underscores_ok "000" (String "-" (String d t)) = underscores_ok "000" (String d t)) as ->.
  { simpl. apply Ascii.eqb_neq in Hus. now rewrite Hus. }
  destruct (underscores_ok "000" (String d t)); [|reflexivity].
  rewrite (str_remove_cons_ne "_" "-") by discriminate.
  rewrite (str_remove_cons_ne "_" d) by exact Hus.
  set (u := str_remove "_" t).
  change (read_sign (String "-" (String d u))) with (true, String d u).
  destruct (read_sign_cases d u) as [[E _]|[[E _]|(_ & _ & E)]]; try congruence.
  rewrite E.
  destruct (_ || _); [reflexivity|].
  destruct (String.eqb _ "nan"); [reflexivity|].
  unfold read_decimal.
  destruct (read_digits 0 0 (String d u)) as [[ip n_int] r1].
  match goal with |- context [match ?X with (_, _) => _ end] => destruct X as [[m n_frac] r2] end.
  destruct (0 <? n_int + n_frac); [|reflexivity].
  destruct (read_exponent r2); [|reflexivity].
  simpl. now rewrite float_of_decimal_opp.
Qed.

Lemma try_py_float_minus (d : ascii) (t : string) (mult : float) :
  starts_number d = true ->
  try_except_ValueError
    (x ← py_float (String "-" (String d t)); mret (Some (float_mul x mult))) (Return None)
  = opp_result (try_except_ValueError
                  (x ← py_float (String d t); mret (Some (float_mul x mult))) (Return None)).
Proof.
  intros Hd. rewrite (py_float_minus d t Hd).
  destruct (py_float (String d t)) as [x|e]; simpl.
  - now rewrite float_mul_opp.
  - now destruct e.
Qed.

(** X4.  A minus sign before a text that begins with a digit or a point
    goes through the trimming, the commas, the percent sign and the suffix:
    the value is the opposite of the value of the text without the sign, and
    there is no value when the text without the sign has none. *)
Theorem parse_number_minus_sign (d : ascii) (r : string) :
  starts_number d = true ->
  parse_number (Some (String "-" (String d r))) = opp_result (parse_number (Some (String d r))).
Proof.
  intros Hd.
  destruct (starts_number_facts d Hd) as (Hsp & Hcomma & Hpct & HK & HM & _).
  unfold parse_number.
  cbv beta iota zeta delta [truthy str_truthy negb default from_option id].
  rewrite (str_strip_cons "-") by reflexivity.
  rewrite (str_strip_cons d) by exact Hsp.
  rewrite (str_rstrip_cons d) by exact Hsp.
  rewrite (str_remove_cons_ne "," "-") by discriminate.
  rewrite (str_remove_cons_ne "," d) by exact Hcomma.
  set (t := str_remove "," (str_rstrip r)).
  rewrite str_endswith_cons.
  assert (exists t', (if str_endswith (String d t) "%"
                      then str_remove "%" (String "-" (String d t))
                      else String "-" (String d t)) = String "-" (String d t')
                     /\ (if str_endswith (String d t) "%"
                         then str_remove "%" (String d t) else String d t) = String d t')
    as (t' & -> & ->).
  { destruct (str_endswith (String d t) "%").
    - exists (str_remove "%" t).
      rewrite (str_remove_cons_ne "%" "-") by discriminate.
      now rewrite (str_remove_cons_ne "%" d) by exact Hpct.
    - now exists t. }
  rewrite !str_endswith_cons.
  destruct (str_endswith (String d t') "K"); [|destruct (str_endswith (String d t') "M")].
  - rewrite (str_remove_cons_ne "K" "-") by discriminate.
    rewrite (str_remove_cons_ne "K" d) by exact HK.
    now apply try_py_float_minus.
  - rewrite (str_remove_cons_ne "M" "-") by discriminate.
    rewrite (str_remove_cons_ne "M" d) by exact HM.
    now apply try_py_float_minus.
  - now apply try_py_float_minus.
Qed.

Lemma parse_number_minus_sign_witness :
  parse_number (Some "-2,950K") = Return (Some (float_of_Z (-2950000)))
  /\ parse_number (Some "-.5%") = Return (Some (SFopp (float_of_decimal false 5 (-1)))).
Proof.
  split.
  - rewrite (parse_number_minus_sign "2" ",950K" eq_refl). vm_compute. reflexivity.
  - rewrite (parse_number_minus_sign "." "5%" eq_refl). vm_compute. reflexivity.
Defined.

(** ** What [convert_time] returns *)












(** The cases of [convert_time]. *)
Lemma convert_time_cases (env : PyEnv) (dt_str : string) (tz_from : option string) (tz_to : string) :
  convert_time env dt_str tz_from tz_to = Return (None, None)
  \/ exists dt utc_time local_time,
       dateparser_parse env dt_str = Return dt
       /\ astimezone env (replace_tzinfo dt (source_zone env tz_from)) (Some tz_UTC) = Return utc_time
       /\ astimezone env (replace_tzinfo dt (source_zone env tz_from)) (tz_gettz env tz_to)
          = Return local_time
       /\ convert_time env dt_str tz_from tz_to
          = Return (Some (isoformat utc_time), Some (strftime_minutes local_time)).
Proof.
  unfold convert_time, source_zone.
  destruct (dateparser_parse env dt_str) as [dt|]; [|now left]. simpl.
  set (d := if truthy tz_from then _ else _).
  destruct (astimezone env d (Some tz_UTC)) as [u|] eqn:Hu; [|now left]. simpl.
  destruct (astimezone env d (tz_gettz env tz_to)) as [l|] eqn:Hl; [|now left]. simpl.
  right. exists dt, u, l. subst d. destruct (truthy tz_from); auto.
Qed.

Lemma convert_time_both_or_neither_aux (env : PyEnv) (dt_str : string) (tz_from : option string)
      (tz_to : string) :
  convert_time env dt_str tz_from tz_to = Return (None, None)
  \/ exists utc_text local_text,
       convert_time env dt_str tz_from tz_to = Return (Some utc_text, Some local_text).
Proof.
  destruct (convert_time_cases env dt_str tz_from tz_to) as [H|(dt & u & l & _ & _ & _ & H)];
    eauto.
Qed.





(** ** The events of a provider *)

Lemma convert_time_pairs (env : PyEnv) (dt_str : string) (tz_from : option string) (tz_to : string)
      (u l : option string) :
  convert_time env dt_str tz_from tz_to = Return (u, l) -> (u = None <-> l = None).
Proof.
  intros H.
  destruct (convert_time_both_or_neither_aux env dt_str tz_from tz_to) as [H'|(a & b & H')];
    rewrite H' in H; injection H as <- <-; split; congruence.
Qed.

(** The event a ForexFactory row gives, field by field. *)
Lemma ff_row_event (env : PyEnv) (countries importance : list string) (row : ff_row) (e : Event.t) :
  ff_row_result env countries importance row = Appended e ->
  exists dt_str,
    time_cell row = Some dt_str
    /\ title_cell row = Some (Event.title e)
    /\ Event.country e = default "" (country_cell row)
    /\ convert_time env dt_str (Some "America/New_York") "UTC"
       = Return (Event.time_utc e, Event.time_local e)
    /\ parse_cell (actual_cell row) = Return (Event.actual_value e)
    /\ parse_cell (forecast_cell row) = Return (Event.forecast_value e)
    /\ parse_cell (previous_cell row) = Return (Event.previous_value e)
    /\ Event.provider e = "forex_factory"
    /\ Event.timezone e = "UTC"
    /\ Event.id e = sha1_id [Some "forex_factory"; Some (Event.title e); Some (Event.country e);
                             Event.time_utc e].
Proof.
  unfold ff_row_result, ff_row_body.
  destruct (title_cell row) as [title|]; [|discriminate].
  destruct (list_truthy countries && _); [discriminate|].
  destruct (list_truthy importance && _); [discriminate|].
  destruct (time_cell row) as [dt_str|]; [|discriminate]. simpl.
  destruct (convert_time _ _ _ _) as [[utc_time local_time]|] eqn:Hc; [|discriminate]. simpl.
  destruct (parse_cell (actual_cell row)); [|discriminate]. simpl.
  destruct (parse_cell (forecast_cell row)); [|discriminate]. simpl.
  destruct (parse_cell (previous_cell row)); [|discriminate]. simpl.
  intros [= <-]. simpl. exists dt_str. repeat split; auto.
Qed.

Lemma investing_row_event (env : PyEnv) (countries importance : list string) (row : investing_row)
      (e : Event.t) :
  investing_row_result env countries importance row = Appended e ->
  (Event.title e, Event.country e) = investing_title_country row
  /\ convert_time env (default "" (data_event_datetime row)) (Some "UTC") "UTC"
     = Return (Event.time_utc e, Event.time_local e)
  /\ Event.actual_value e = None /\ Event.forecast_value e = None /\ Event.previous_value e = None
  /\ Event.provider e = "investing_com"
  /\ Event.timezone e = "UTC"
  /\ Event.id e = sha1_id [Some "investing_com"; Some (Event.title e); Some (Event.country e);
                           Event.time_utc e].
Proof.
  unfold investing_row_result, investing_row_body, investing_title_country.
  destruct (convert_time _ _ _ _) as [[utc_time local_time]|] eqn:Hc; [|discriminate]. simpl.
  destruct (list_truthy countries && _); [discriminate|].
  destruct (list_truthy importance && _); [discriminate|].
  intros [= <-]. simpl. repeat split; auto.
Qed.

Lemma fetched_events_well_formed_aux (env : PyEnv) (status_code : Z) (countries importance : list string) :
  (forall rows, Forall (event_well_formed "forex_factory")
                       (ForexFactoryProvider_fetch env status_code rows countries importance))
  /\ (forall rows, Forall (event_well_formed "investing_com")
                          (InvestingProvider_fetch env status_code rows countries importance)).
Proof.
  unfold ForexFactoryProvider_fetch, InvestingProvider_fetch.
  split; intros rows; (destruct (negb _); [apply List.Forall_nil|]);
    apply Forall_forall; intros e He; apply list_elem_of_omap in He as (row & _ & Hrow).
  - destruct (ff_row_result env countries importance row) as [e'| |] eqn:E; try discriminate.
    injection Hrow as ->.
    apply ff_row_event in E as (dt_str & _ & _ & _ & Hc & _ & _ & _ & Hp & Hz & Hid).
    unfold event_well_formed. rewrite Hp. repeat split; auto.
    + apply (convert_time_pairs _ _ _ _ _ _ Hc).
    + apply (convert_time_pairs _ _ _ _ _ _ Hc).
  - destruct (investing_row_result env countries importance row) as [e'| |] eqn:E; try discriminate.
    injection Hrow as ->.
    apply investing_row_event in E as (_ & Hc & _ & _ & _ & Hp & Hz & Hid).
    unfold event_well_formed. rewrite Hp. repeat split; auto.
    + apply (convert_time_pairs _ _ _ _ _ _ Hc).
    + apply (convert_time_pairs _ _ _ _ _ _ Hc).
Qed.

(** X7.  Every event a provider returns carries the provider's name and the
    zone label ["UTC"]; its identifier is the digest of its own provider,
    title, country and [time_utc], so that reading the same row again gives
    the same identifier; and its local time is absent exactly when its
    [time_utc] is. *)
Theorem fetched_events_well_formed (env : PyEnv) (status_code : Z) (countries importance : list string) :
  (forall rows, Forall (event_well_formed "forex_factory")
                       (ForexFactoryProvider_fetch env status_code rows countries importance))
  /\ (forall rows, Forall (event_well_formed "investing_com")
                          (InvestingProvider_fetch env status_code rows countries importance)).
Proof.
  apply fetched_events_well_formed_aux.
Qed.

(** ** The country filter *)

Lemma ff_row_country_filter (env : PyEnv) (countries importance : list string) (row : ff_row) :
  appended (ff_row_result env countries importance row)
  = match appended (ff_row_result env [] importance row) with
    | Some e => if country_passes countries (Event.country e) then Some e else None
    | None => None
    end.
Proof.
  unfold ff_row_result, ff_row_body, country_passes.
  destruct (title_cell row) as [title|]; [|reflexivity].
  change (list_truthy [] && negb (str_in (default "" (country_cell row)) [])) with false.
  cbv iota.
  destruct (list_truthy countries && negb (str_in (default "" (country_cell row)) countries)) eqn:Hc.
  - destruct (list_truthy importance && _); [reflexivity|].
    destruct (get_text (time_cell row)) as [dt_str|]; [|reflexivity]. simpl.
    destruct (convert_time _ _ _ _) as [[u l]|]; [|reflexivity]. simpl.
    destruct (parse_cell (actual_cell row)); [|reflexivity]. simpl.
    destruct (parse_cell (forecast_cell row)); [|reflexivity]. simpl.
    destruct (parse_cell (previous_cell row)); [|reflexivity]. simpl.
    now rewrite Hc.
  - destruct (list_truthy importance && _); [reflexivity|].
    destruct (get_text (time_cell row)) as [dt_str|]; [|reflexivity]. simpl.
    destruct (convert_time _ _ _ _) as [[u l]|]; [|reflexivity]. simpl.
    destruct (parse_cell (actual_cell row)); [|reflexivity]. simpl.
    destruct (parse_cell (forecast_cell row)); [|reflexivity]. simpl.
    destruct (parse_cell (previous_cell row)); [|reflexivity]. simpl.
    now rewrite Hc.
Qed.

Lemma investing_row_country_filter (env : PyEnv) (countries importance : list string)
      (row : investing_row) :
  appended (investing_row_result env countries importance row)
  = match appended (investing_row_result env [] importance row) with
    | Some e => if country_passes countries (Event.country e) then Some e else None
    | None => None
    end.
Proof.
  unfold investing_row_result, investing_row_body, country_passes.
  destruct (convert_time _ _ _ _) as [[u l]|]; [|reflexivity]. simpl.
  destruct (list_truthy countries && negb (str_in (default "" (data_country row)) countries)) eqn:Hc;
    (destruct (list_truthy importance && _); [reflexivity|]); simpl; now rewrite Hc.
Qed.

Lemma omap_then_filter {A : Type} (f g : A -> option Event.t) (p : Event.t -> bool) (rows : list A) :
  (forall row, f row = match g row with
                       | Some e => if p e then Some e else None
                       | None => None
                       end) ->
  omap f rows = List.filter p (omap g rows).
Proof.
  intros H. induction rows as [|row rows IH]; [reflexivity|].
  cbn [omap list_omap]. rewrite (H row), IH.
  destruct (g row) as [e|]; [|reflexivity].
  simpl. now destruct (p e).
Qed.

(** X8.  Filtering by country and fetching commute: what a provider returns
    for an allow-list of countries is what it returns without one, restricted
    to the events whose country is in the list; in particular every event
    returned has a country of the list. *)
Theorem country_filter_commutes_with_fetch (env : PyEnv) (status_code : Z)
        (countries importance : list string) :
  (forall rows,
      ForexFactoryProvider_fetch env status_code rows countries importance
      = keep_countries countries (ForexFactoryProvider_fetch env status_code rows [] importance))
  /\ (forall rows,
         InvestingProvider_fetch env status_code rows countries importance
         = keep_countries countries (InvestingProvider_fetch env status_code rows [] importance))
  /\ (forall ff_rows investing_rows e,
         In e (ForexFactoryProvider_fetch env status_code ff_rows countries importance
               ++ InvestingProvider_fetch env status_code investing_rows countries importance) ->
         country_passes countries (Event.country e) = true).
Proof.
  assert (forall rows,
             ForexFactoryProvider_fetch env status_code rows countries importance
             = keep_countries countries
                 (ForexFactoryProvider_fetch env status_code rows [] importance)) as Hff.
  { intros rows. unfold ForexFactoryProvider_fetch, ff_events, keep_countries.
    destruct (negb _); [reflexivity|].
    apply omap_then_filter. intros row. apply ff_row_country_filter. }
  assert (forall rows,
             InvestingProvider_fetch env status_code rows countries importance
             = keep_countries countries
                 (InvestingProvider_fetch env status_code rows [] importance)) as Hinv.
  { intros rows. unfold InvestingProvider_fetch, investing_events, keep_countries.
    destruct (negb _); [reflexivity|].
    apply omap_then_filter. intros row. apply investing_row_country_filter. }
  split; [exact Hff|split; [exact Hinv|]].
  intros ff_rows investing_rows e He.
  rewrite Hff, Hinv in He. unfold keep_countries in He.
  apply in_app_or in He as [He|He]; apply filter_In in He as [_ He]; exact He.
Qed.

(** ** Rows kept and rows lost *)

Lemma investing_row_unfiltered (env : PyEnv) (row : investing_row) :
  exists e, investing_row_result env [] [] row = Appended e.
Proof.
  apply investing_row_passes; reflexivity.
Qed.

(** X9.  Without filters, Investing.com gives one event for each row of a
    page that was fetched, in the order of the rows, with the title and the
    country of the row (empty when the row has none) and the two times
    [convert_time] returns for the row's date: no row is lost, whatever its
    date looks like. *)
Theorem investing_fetch_keeps_every_row (env : PyEnv) (rows : list investing_row) :
  Forall2 (fun row e =>
             (Event.title e, Event.country e) = investing_title_country row
             /\ convert_time env (default "" (data_event_datetime row)) (Some "UTC") "UTC"
                = Return (Event.time_utc e, Event.time_local e))
          rows (InvestingProvider_fetch env 200 rows [] []).
Proof.
  unfold InvestingProvider_fetch. simpl. unfold investing_events.
  induction rows as [|row rows IH]; [constructor|].
  cbn [omap list_omap].
  destruct (investing_row_unfiltered env row) as [e He]. rewrite He. simpl.
  constructor; [|exact IH].
  apply investing_row_event in He as (Htc & Hc & _). auto.
Qed.

(** X10.  The only rows an exception takes away are the ForexFactory rows
    that have a title cell, pass both filters and have no time cell (the
    exception is the [AttributeError] of [None.get_text]); a date or a number
    that cannot be read never costs a row, and no row of Investing.com is
    lost to an exception. *)
Theorem only_missing_time_cell_raises (env : PyEnv) (countries importance : list string) :
  (forall row ex,
      ff_row_result env countries importance row = Logged ex
      <-> ex = AttributeError
          /\ title_cell row <> None
          /\ time_cell row = None
          /\ country_passes countries (default "" (country_cell row)) = true
          /\ (list_truthy importance && negb (str_in (ff_imp row) importance)) = false)
  /\ (forall row ex, investing_row_result env countries importance row <> Logged ex).
Proof.
  split.
  - intros row ex. unfold ff_row_result, ff_row_body, country_passes. fold (ff_imp row).
    destruct (title_cell row) as [title|].
    2:{ split; [discriminate|]. intros (_ & H & _). congruence. }
    destruct (list_truthy countries && _).
    { split; [discriminate|]. intros (_ & _ & _ & H & _). discriminate. }
    destruct (list_truthy importance && _).
    { split; [discriminate|]. intros (_ & _ & _ & _ & H). discriminate. }
    destruct (time_cell row) as [dt_str|]; simpl.
    + destruct (convert_time_returns env dt_str (Some "America/New_York") "UTC") as [[u l] ->].
      simpl.
      destruct (parse_cell_returns (actual_cell row)) as [a ->]. simpl.
      destruct (parse_cell_returns (forecast_cell row)) as [b ->]. simpl.
      destruct (parse_cell_returns (previous_cell row)) as [c ->]. simpl.
      split; [discriminate|]. intros (_ & _ & H & _). discriminate.
    + split.
      * intros [= <-]. repeat split; congruence.
      * intros (-> & _). reflexivity.
  - intros row ex. unfold investing_row_result, investing_row_body.
    destruct (convert_time_returns env (default "" (data_event_datetime row)) (Some "UTC") "UTC")
      as [[u l] ->]. simpl.
    destruct (list_truthy countries && _); [discriminate|].
    destruct (list_truthy importance && _); discriminate.
Qed.

(** X11.  A provider never reorders, repeats or invents events: the titles
    of the events it returns are, in the same order, among the titles of the
    rows. *)
Theorem fetch_keeps_row_order (env : PyEnv) (status_code : Z) (countries importance : list string) :
  (forall rows,
      sublist (Event.title <$> ForexFactoryProvider_fetch env status_code rows countries importance)
              (omap title_cell rows))
  /\ (forall rows,
         sublist (Event.title <$> InvestingProvider_fetch env status_code rows countries importance)
                 ((fun row => default "" (data_event_title row)) <$> rows)).
Proof.
  unfold ForexFactoryProvider_fetch, InvestingProvider_fetch.
  split; intros rows; (destruct (negb _); [apply sublist_nil_l|]).
  - unfold ff_events. induction rows as [|row rows IH]; [constructor|].
    cbn [omap list_omap].
    destruct (ff_row_result env countries importance row) as [e| |] eqn:E; simpl.
    + apply ff_row_event in E as (_ & _ & -> & _). simpl. now apply sublist_skip.
    + destruct (title_cell row); [now apply sublist_cons|exact IH].
    + destruct (title_cell row); [now apply sublist_cons|exact IH].
  - unfold investing_events. induction rows as [|row rows IH]; [constructor|].
    cbn [omap list_omap fmap list_fmap].
    destruct (investing_row_result env countries importance row) as [e| |] eqn:E; simpl.
    + apply investing_row_event in E as (Htc & _).
      unfold investing_title_country in Htc. injection Htc as -> _. now apply sublist_skip.
    + now apply sublist_cons.
    + now apply sublist_cons.
Qed.

(** ** What [notify_upcoming] prints, whatever happens *)

Lemma notify_test_true (env : PyEnv) (now until : datetime) (e : Event.t) :
  notify_test env now until e = Return true -> truthy (Event.time_utc e) = true.
Proof.
  unfold notify_test. destruct (truthy (Event.time_utc e)); [reflexivity|discriminate].
Qed.

Lemma notify_loop_prints (env : PyEnv) (now until : datetime) (events printed : list Event.t) :
  exists selected,
    (notify_loop env now until events printed).1 = printed ++ selected
    /\ sublist selected events
    /\ Forall (fun e => truthy (Event.time_utc e) = true) selected.
Proof.
  revert printed. induction events as [|e events IH]; intros printed; simpl.
  - exists []. rewrite app_nil_r. repeat split; constructor.
  - destruct (notify_test env now until e) as [[|]|ex] eqn:E.
    + destruct (IH (printed ++ [e])) as (sel & -> & Hs & Hf).
      exists (e :: sel). rewrite <- app_assoc. repeat split.
      * now apply sublist_skip.
      * constructor; [now apply notify_test_true in E|exact Hf].
    + destruct (IH printed) as (sel & -> & Hs & Hf).
      exists sel. repeat split; [now apply sublist_cons|exact Hf].
    + exists []. simpl. rewrite app_nil_r. repeat split; [apply sublist_nil_l|constructor].
Qed.

(** X12.  However the call ends, also when it ends with an exception, every
    line printed is for an event of the input that has a [time_utc], and the
    lines come in the order of the input, none of them twice. *)
Theorem notify_upcoming_prints_sublist (env : PyEnv) (clock : Z) (events : list Event.t)
        (window tz_name : string) :
  sublist (notify_upcoming env clock events window tz_name).1 events
  /\ Forall (fun e => truthy (Event.time_utc e) = true)
            (notify_upcoming env clock events window tz_name).1.
Proof.
  unfold notify_upcoming.
  match goal with |- context [match ?b with Return _ => _ | Raise _ => _ end] =>
    destruct b as [[now until]|ex] end.
  - destruct (notify_loop_prints env now until events []) as (sel & -> & Hs & Hf). auto.
  - simpl. split; [apply sublist_nil_l|constructor].
Qed.

(** X13.  Reading the window raises nothing but [ValueError], when the part
    before the last character is not an integer, and [OverflowError], when
    it is one that a [timedelta] cannot hold.  The [IndexError] of taking the
    last character of an empty window never shows: [int("")] has failed
    before.  A window that is read is a duration of less than a thousand
    million days. *)
Theorem window_delta_outcomes (window : string) :
  match window_delta window with
  | Raise e =>
    (e = ValueError /\ py_int (str_init window) = Raise ValueError)
    \/ (e = OverflowError /\ exists num, py_int (str_init window) = Return num)
  | Return delta =>
    - 999999999 * US_PER_DAY <= delta < 1000000000 * US_PER_DAY
    /\ exists num, py_int (str_init window) = Return num
  end.
Proof.
  unfold window_delta.
  destruct (py_int (str_init window)) as [num|e] eqn:Hint; simpl.
  - destruct (str_last window) as [unit|e] eqn:Hlast; simpl.
    + assert (forall us, match timedelta us with
                         | Raise e => e = OverflowError
                         | Return d => - 999999999 * US_PER_DAY <= d < 1000000000 * US_PER_DAY
                         end) as Htd.
      { intros us. unfold timedelta.
        destruct (_ && _) eqn:E; [|reflexivity].
        apply andb_true_iff in E as [E1 E2]. apply Z.leb_le in E1. apply Z.ltb_lt in E2. lia. }
      destruct (Ascii.eqb unit "h"); [|destruct (Ascii.eqb unit "m")];
        match goal with |- context [timedelta ?us] =>
          specialize (Htd us); destruct (timedelta us) end;
        eauto.
    + destruct window as [|c w]; [discriminate Hint|].
      exfalso. clear Hint. revert c Hlast.
      induction w as [|d w IH]; intros c Hlast; [discriminate|].
      apply (IH d). exact Hlast.
  - left. pose proof (py_int_raises_ValueError _ _ Hint) as ->. auto.
Qed.

(** ** The table of events *)

Lemma insert_or_ignore_lookup (table : gmap string Event.t) (e : Event.t) (k : string) :
  insert_or_ignore table e !! k
  = match table !! k with
    | Some r => Some r
    | None => if decide (Event.id e = k) then Some (sqlite_row e) else None
    end.
Proof.
  unfold insert_or_ignore.
  destruct (table !! Event.id e) as [r|] eqn:E.
  - destruct (table !! k) as [r'|] eqn:E'; [reflexivity|].
    destruct (decide (Event.id e = k)) as [Heq|]; [congruence|reflexivity].
  - destruct (decide (Event.id e = k)) as [Heq|Hne].
    + rewrite <- Heq. now rewrite lookup_insert_eq, E.
    + rewrite lookup_insert_ne by exact Hne. now destruct (table !! k).
Qed.

(** A row that is in the table stays as it is. *)
Lemma save_sqlite_keeps (events : list Event.t) (table : gmap string Event.t) (k : string)
      (r : Event.t) :
  table !! k = Some r -> save_sqlite events table !! k = Some r.
Proof.
  unfold save_sqlite. revert table.
  induction events as [|e events IH]; intros table H; simpl; [exact H|].
  apply IH. now rewrite insert_or_ignore_lookup, H.
Qed.

(** With a free key, the table gets the row of the first event of the batch
    that has the key. *)
Lemma save_sqlite_lookup_free (events : list Event.t) (table : gmap string Event.t) (k : string) :
  table !! k = None ->
  save_sqlite events table !! k
  = sqlite_row <$> List.find (fun e => bool_decide (Event.id e = k)) events.
Proof.
  unfold save_sqlite. revert table.
  induction events as [|e events IH]; intros table H; simpl; [exact H|].
  destruct (bool_decide (Event.id e = k)) eqn:E.
  - apply bool_decide_eq_true in E.
    apply (save_sqlite_keeps events). rewrite insert_or_ignore_lookup, H.
    now rewrite decide_True by exact E.
  - apply bool_decide_eq_false in E. apply IH.
    rewrite insert_or_ignore_lookup, H. now rewrite decide_False by exact E.
Qed.

Lemma save_sqlite_first_write_wins_aux (events : list Event.t) (table : gmap string Event.t)
      (k : string) :
  save_sqlite events table !! k
  = match table !! k with
    | Some r => Some r
    | None => sqlite_row <$> List.find (fun e => bool_decide (Event.id e = k)) events
    end.
Proof.
  destruct (table !! k) as [r|] eqn:E.
  - now apply save_sqlite_keeps.
  - now apply save_sqlite_lookup_free.
Qed.

(** X14.  First write wins.  A row that is in the table when [save_sqlite]
    is called is still there, unchanged, afterwards, also when the batch
    brings an event with the same identifier and other values; and a free
    identifier gets the row of the first event of the batch that has it, or
    stays free when no event of the batch has it. *)
Theorem save_sqlite_first_write_wins (events : list Event.t) (table : gmap string Event.t)
        (k : string) :
  save_sqlite events table !! k
  = match table !! k with
    | Some r => Some r
    | None => sqlite_row <$> List.find (fun e => bool_decide (Event.id e = k)) events
    end.
Proof.
  apply save_sqlite_first_write_wins_aux.
Qed.

Lemma save_sqlite_noop (events : list Event.t) (table : gmap string Event.t) :
  Forall (fun e => is_Some (table !! Event.id e)) events ->
  save_sqlite events table = table.
Proof.
  unfold save_sqlite. induction 1 as [|e events [r Hr] _ IH]; simpl; [reflexivity|].
  unfold insert_or_ignore at 2. rewrite Hr. exact IH.
Qed.

Lemma save_sqlite_has_ids (events : list Event.t) (table : gmap string Event.t) :
  Forall (fun e => is_Some (save_sqlite events table !! Event.id e)) events.
Proof.
  apply Forall_forall. intros e He.
  destruct (table !! Event.id e) as [r|] eqn:E.
  - exists r. now apply save_sqlite_keeps.
  - rewrite save_sqlite_lookup_free by exact E.
    destruct (List.find _ events) as [e'|] eqn:Hf; [now eexists|].
    exfalso. apply list_elem_of_In in He.
    apply (find_none _ _ Hf) in He. now rewrite bool_decide_eq_false in He.
Qed.

(** X15.  Saving is idempotent: after a batch has been saved, every event of
    it has its identifier in the table, and saving the same batch again (or
    any batch of events whose identifiers are in the table) leaves the table
    as it is. *)
Theorem save_sqlite_idempotent (events : list Event.t) (table : gmap string Event.t) :
  Forall (fun e => is_Some (save_sqlite events table !! Event.id e)) events
  /\ save_sqlite events (save_sqlite events table) = save_sqlite events table
  /\ (forall again,
         Forall (fun e => is_Some (save_sqlite events table !! Event.id e)) again ->
         save_sqlite again (save_sqlite events table) = save_sqlite events table).
Proof.
  split; [apply save_sqlite_has_ids|]. split.
  - apply save_sqlite_noop, save_sqlite_has_ids.
  - intros again. apply save_sqlite_noop.
Qed.

(** X16.  Saving two batches one after the other is saving them as one batch,
    and the identifiers of the table afterwards are those it had and those
    of the events saved. *)
Theorem save_sqlite_batches (first second : list Event.t) (table : gmap string Event.t) :
  save_sqlite second (save_sqlite first table) = save_sqlite (first ++ second) table
  /\ dom (save_sqlite first table) = dom table ∪ list_to_set (Event.id <$> first).
Proof.
  split.
  - unfold save_sqlite. now rewrite fold_left_app.
  - apply set_eq. intros k. rewrite elem_of_union, !elem_of_dom, save_sqlite_first_write_wins_aux.
    rewrite elem_of_list_to_set, list_elem_of_fmap.
    destruct (table !! k) as [r|] eqn:E.
    + split; [intros _; left; eauto|eauto].
    + split.
      * intros [r Hr]. right.
        destruct (List.find _ first) as [e|] eqn:Hf; [|discriminate].
        apply find_some in Hf as [Hin Hid]. apply bool_decide_eq_true in Hid.
        exists e. split; [now symmetry|now apply list_elem_of_In].
      * intros [[r Hr]|(e & -> & Hin)]; [discriminate|].
        destruct (List.find _ first) as [e'|] eqn:Hf; [now eexists|].
        exfalso. apply list_elem_of_In in Hin.
        apply (find_none _ _ Hf) in Hin. now rewrite bool_decide_eq_false in Hin.
Qed.

(** ** The run as a whole *)

(** With one event at least, no sink fails. *)
Lemma run_sinks_nonempty (events : list Event.t) (args : Args.t) (ts : string) :
  events <> [] ->
  run_sinks events args ts = (requested_writes events args ts, Return tt).
Proof.
  intros Hne. unfold run_sinks, requested_writes, save_csv, save_json.
  destruct events as [|e events]; [congruence|].
  destruct (str_in "csv" _), (str_in "json" _), (str_in "sqlite" _); reflexivity.
Qed.

Lemma list_truthy_nonempty {A : Type} (l : list A) : list_truthy l = true <-> l <> [].
Proof.
  destruct l; simpl; split; congruence.
Qed.

(** X17.  The run ends with exit code 2 exactly when the providers asked for
    gave no event at all, and then nothing has been written or printed.
    That is the case when neither page could be fetched: the run does not
    tell a failed fetch from a day without events. *)
Theorem main_exit_two_iff_no_events (env : PyEnv) (web : Web) (clock_saved clock_notify : Z)
        (args : Args.t) :
  ((main env web clock_saved clock_notify args).2 = Exit 2 <-> all_events env web args = [])
  /\ (all_events env web args = [] -> main env web clock_saved clock_notify args = ([], Exit 2))
  /\ (ff_status web <> 200 -> investing_status web <> 200 ->
      main env web clock_saved clock_notify args = ([], Exit 2)).
Proof.
  assert (all_events env web args = [] ->
          main env web clock_saved clock_notify args = ([], Exit 2)) as Hnone.
  { intros H. unfold main. now rewrite H. }
  split; [split; [|intros H; now rewrite (Hnone H)]|split; [exact Hnone|]].
  - unfold main. destruct (all_events env web args) as [|e events] eqn:E; [reflexivity|].
    simpl negb. cbv iota.
    rewrite run_sinks_nonempty by discriminate.
    destruct (bool_decide _); [|discriminate].
    destruct (notify_upcoming _ _ _ _ _) as [printed [[]|ex]]; discriminate.
  - intros Hff Hinv. apply Hnone. unfold all_events, ForexFactoryProvider_fetch,
      InvestingProvider_fetch.
    apply Z.eqb_neq in Hff, Hinv. rewrite Hff, Hinv. simpl.
    now destruct (str_in "forex_factory" _), (str_in "investing_com" _).
Qed.

Lemma main_exit_two_iff_no_events_witness :
  let web := mk_web 503 [] 403 [mk_investing_row (Some "CPI") (Some "US") (Some "high")
                                                 (Some "2024-01-05 13:30")] in
  let args := Args.mk ["forex_factory"; "investing_com"] [] [] "Europe/Madrid" ["csv"] "./data"
                      "./data/calendar.sqlite" None "24h" in
  main Fixture.env web (Fixture.reading 2024 1 5 12 0 0) (Fixture.reading 2024 1 5 12 0 1) args
  = ([], Exit 2).
Proof.
  intros web args.
  apply (main_exit_two_iff_no_events Fixture.env web (Fixture.reading 2024 1 5 12 0 0)
           (Fixture.reading 2024 1 5 12 0 1) args); discriminate.
Defined.

(** X18.  Without [--notify], a run that has events ends with exit code 0,
    after handing the whole list of events, in the order ForexFactory then
    Investing.com, to each sink that is asked for, CSV first, then JSON, then
    SQLite.  No sink is ever handed an empty list, so the [IndexError] of
    [save_csv] cannot end a run; and a format name that is none of the three
    is passed over in silence. *)
Theorem main_without_notify (env : PyEnv) (web : Web) (clock_saved clock_notify : Z)
        (args : Args.t) :
  Args.notify args <> Some "upcoming" ->
  all_events env web args <> [] ->
  main env web clock_saved clock_notify args
  = (requested_writes (all_events env web args) args (timestamp clock_saved), Exit 0).
Proof.
  intros Hn He. unfold main.
  apply list_truthy_nonempty in He as Ht. rewrite Ht. simpl negb. cbv iota.
  rewrite run_sinks_nonempty by exact He.
  now rewrite bool_decide_eq_false_2 by exact Hn.
Qed.

Lemma main_without_notify_witness :
  let web := mk_web 200 [mk_ff_row (Some "2024-01-05 08:30") (Some "CPI") (Some "US") (Some "High")
                                   (Some "3.1%") None None]
                    200 [mk_investing_row (Some "GDP") (Some "DE") None (Some "2024-01-05 13:30")] in
  let args := Args.mk ["investing_com"; "forex_factory"] [] [] "Europe/Madrid" ["sqlite"; "xml"; "csv"]
                      "./data" "./data/calendar.sqlite" None "24h" in
  exists cpi gdp,
    Event.title cpi = "CPI" /\ Event.title gdp = "GDP"
    /\ main Fixture.env web (Fixture.reading 2024 1 5 12 0 0) (Fixture.reading 2024 1 5 12 0 1) args
       = ([Saved (Csv "./data/events_20240105_120000.csv" EVENT_KEYS [cpi; gdp]);
           Saved (Sqlite "./data/calendar.sqlite" [cpi; gdp])], Exit 0).
Proof.
  intros web args.
  pose proof (main_without_notify Fixture.env web (Fixture.reading 2024 1 5 12 0 0)
                (Fixture.reading 2024 1 5 12 0 1) args) as H.
  assert (Args.notify args <> Some "upcoming") as H1 by discriminate.
  assert (all_events Fixture.env web args <> []) as H2 by (vm_compute; discriminate).
  specialize (H H1 H2).
  eexists _, _. split; [|split; [|etransitivity; [apply H|vm_compute; reflexivity]]];
    vm_compute; reflexivity.
Defined.

(** X19.  With [--notify upcoming] and a window whose leading part is not an
    integer, the run ends with an uncaught [ValueError]; that happens after
    every write that is asked for has been made, and before any line is
    printed. *)
Theorem main_bad_window_after_writes (env : PyEnv) (web : Web) (clock_saved clock_notify : Z)
        (args : Args.t) (now : datetime) (e : exn) :
  Args.notify args = Some "upcoming" ->
  all_events env web args <> [] ->
  datetime_now env clock_notify (tz_gettz env (Args.tz args)) = Return now ->
  py_int (str_init (Args.notify_window args)) = Raise e ->
  main env web clock_saved clock_notify args
  = (requested_writes (all_events env web args) args (timestamp clock_saved),
     Uncaught ValueError).
Proof.
  intros Hn He Hnow Hint. unfold main.
  apply list_truthy_nonempty in He as Ht. rewrite Ht. simpl negb. cbv iota.
  rewrite run_sinks_nonempty by exact He.
  rewrite bool_decide_eq_true_2 by exact Hn.
  rewrite (notify_upcoming_bad_magnitude env clock_notify _ _ _ now e Hnow Hint).
  simpl. now rewrite app_nil_r.
Qed.

Lemma main_bad_window_after_writes_witness :
  let web := mk_web 200 [] 200 [mk_investing_row (Some "GDP") (Some "DE") None
                                                 (Some "2024-01-05 13:30")] in
  let args := Args.mk ["investing_com"] [] [] "UTC" ["json"] "out/" "./data/calendar.sqlite"
                      (Some "upcoming") "day" in
  exists gdp,
    main Fixture.env web (Fixture.reading 2024 1 5 12 0 0) (Fixture.reading 2024 1 5 12 0 1) args
    = ([Saved (Json "out/events_20240105_120000.json" [gdp])], Uncaught ValueError).
Proof.
  intros web args.
  pose proof (main_bad_window_after_writes Fixture.env web (Fixture.reading 2024 1 5 12 0 0)
                (Fixture.reading 2024 1 5 12 0 1) args
                {| wall := Fixture.reading 2024 1 5 12 0 1; fold := false;
                   dt_tzinfo := Some tz_UTC |} ValueError) as H.
  assert (Args.notify args = Some "upcoming") as H1 by reflexivity.
  assert (all_events Fixture.env web args <> []) as H2 by (vm_compute; discriminate).
  specialize (H H1 H2 eq_refl eq_refl).
  eexists. etransitivity; [apply H|vm_compute; reflexivity].
Defined.

(** ** One release, two providers *)

Lemma sha1_text_head (c : ascii) (s : string) (rest : list (option string)) :
  exists tail, sha1_text (Some (String c s) :: rest) = String c tail.
Proof.
  unfold sha1_text, str_join. simpl.
  destruct (kept_fields rest) as [|x l]; simpl; eauto.
Qed.

(** X20.  The provider's name is part of what is hashed, and it comes first:
    the bytes hashed for an event of ForexFactory and for an event of
    Investing.com are never the same, also when title, country and time are.
    The identifier does not bring together the same release seen at both
    sites. *)
Theorem providers_hash_different_messages (env : PyEnv) (status_code status_code' : Z)
        (countries importance countries' importance' : list string)
        (ff_rows : list ff_row) (investing_rows : list investing_row) (e1 e2 : Event.t) :
  In e1 (ForexFactoryProvider_fetch env status_code ff_rows countries importance) ->
  In e2 (InvestingProvider_fetch env status_code' investing_rows countries' importance') ->
  Event.id e1 = Sha1.hexdigest (event_message e1)
  /\ Event.id e2 = Sha1.hexdigest (event_message e2)
  /\ event_message e1 <> event_message e2.
Proof.
  intros H1 H2.
  destruct (fetched_events_well_formed_aux env status_code countries importance) as [Hff _].
  destruct (fetched_events_well_formed_aux env status_code' countries' importance') as [_ Hinv].
  specialize (Hff ff_rows). specialize (Hinv investing_rows).
  rewrite Forall_forall in Hff, Hinv.
  apply list_elem_of_In in H1, H2.
  destruct (Hff e1 H1) as (Hp1 & _ & Hid1 & _), (Hinv e2 H2) as (Hp2 & _ & Hid2 & _).
  split; [exact Hid1|split; [exact Hid2|]].
  unfold event_message. rewrite Hp1, Hp2. intros Heq.
  apply utf8_encode_inj in Heq.
  destruct (sha1_text_head "f" "orex_factory"
              [Some (Event.title e1); Some (Event.country e1); Event.time_utc e1]) as [t1 E1].
  destruct (sha1_text_head "i" "nvesting_com"
              [Some (Event.title e2); Some (Event.country e2); Event.time_utc e2]) as [t2 E2].
  change (Some "forex_factory") with (Some (String "f" "orex_factory")) in Heq.
  change (Some "investing_com") with (Some (String "i" "nvesting_com")) in Heq.
  rewrite E1, E2 in Heq. discriminate.
Qed.

Lemma providers_hash_different_messages_witness :
  let ff := mk_ff_row (Some "2024-01-05 08:30") (Some "CPI") (Some "US") None None None None in
  let inv := mk_investing_row (Some "CPI") (Some "US") None (Some "2024-01-05 13:30") in
  exists e1 e2,
    (Event.title e1, Event.country e1, Event.time_utc e1)
    = (Event.title e2, Event.country e2, Event.time_utc e2)
    /\ event_message e1 <> event_message e2.
Proof.
  intros ff inv.
  destruct (ff_row_passes Fixture.env [] [] ff "CPI" "2024-01-05 08:30") as [e1 He1];
    try reflexivity.
  destruct (investing_row_passes Fixture.env [] [] inv) as [e2 He2]; try reflexivity.
  exists e1, e2.
  assert (In e1 (ForexFactoryProvider_fetch Fixture.env 200 [ff] [] [])) as H1.
  { unfold ForexFactoryProvider_fetch, ff_events. cbn [omap list_omap negb Z.eqb Pos.eqb].
    rewrite He1. now left. }
  assert (In e2 (InvestingProvider_fetch Fixture.env 200 [inv] [] [])) as H2.
  { unfold InvestingProvider_fetch, investing_events. cbn [omap list_omap negb Z.eqb Pos.eqb].
    rewrite He2. now left. }
  split.
  - vm_compute in He1, He2. injection He1 as <-. injection He2 as <-. reflexivity.
  - apply (providers_hash_different_messages Fixture.env 200 200 [] [] [] [] [ff] [inv] e1 e2 H1 H2).
Defined.

(** ** The percent sign *)

(** X21.  The percent sign is taken out only when it is the last character
    of the trimmed text without commas: a text that holds one elsewhere, as
    in ["5%K"], gives no value, while ["5K%"] is read as 5000. *)
Theorem parse_number_percent_not_last (s : string) :
  let t := str_remove "," (str_strip s) in
  str_has "%" t = true ->
  str_endswith t "%" = false ->
  parse_number (Some s) = Return None.
Proof.
  intros t Hhas Hend.
  assert (forall u mult, str_has "%" u = true ->
            try_except_ValueError
              (x ← py_float u; mret (Some (float_mul x mult))) (Return None)
            = Return None) as Hfail.
  { intros u mult Hu. destruct (py_float u) as [x|e] eqn:E; simpl.
    - pose proof (py_float_chars _ _ "%" E Hu). discriminate.
    - now rewrite (py_float_raises_ValueError _ _ E). }
  unfold parse_number.
  assert (truthy (Some s) = true) as ->.
  { destruct s; [discriminate Hhas|reflexivity]. }
  cbv beta iota zeta delta [negb default from_option id]. fold t. rewrite Hend.
  destruct (str_endswith t "K"); [|destruct (str_endswith t "M")];
    apply Hfail; rewrite ?str_has_remove; auto; discriminate.
Qed.

Lemma parse_number_percent_not_last_witness :
  parse_number (Some "5%K") = Return None
  /\ parse_number (Some "5K%") = Return (Some (float_of_Z 5000)).
Proof.
  split.
  - apply (parse_number_percent_not_last "5%K"); reflexivity.
  - vm_compute. reflexivity.
Defined.
